(** * Web3 construct stability score

    A shallow embedding of [app.py]: the construct catalog [CONSTRUCTS], the
    two arithmetic functions [stability_curve] and [compute_score], and the
    command-line front end [parse_args] / [main].

    Numbers.  Python's [float] is read as a real number: the literals are the
    decimals written in the source and the operations are the exact ones.
    What binary64 adds to that picture and the program can observe is kept:
    [math.exp] and the true division of an [int] raise [OverflowError] when
    the result leaves the binary64 range, and a division by zero raises
    [ZeroDivisionError].  Rounding errors of the last bit are not modelled:
    where they can show, in the base score (measured on primitive floats
    below) and in the fourth decimal of a score whose exact value is a tie,
    the theorems are stated so that they hold of both readings.  [throughput] is a Python [int], hence a [Z]. *)

From Stdlib Require Import Reals Lra Lia ZArith String Ascii List Bool Floats.
From Stdlib Require Import DecimalString.
Import ListNotations.

Set Warnings "-inexact-float".

Local Open Scope string_scope.
Local Open Scope R_scope.

(** ** The part of the Python runtime the program uses *)

(** The exceptions that can leave the program's functions. *)
Inductive exn : Type :=
| KeyError (k : string)
| ZeroDivisionError
| OverflowError
| SystemExit (code : Z).

(** A call either returns a value or raises. *)
Inductive result (A : Type) : Type :=
| Ok (a : A)
| Raise (e : exn).

Arguments Ok {A} a.
Arguments Raise {A} e.

Definition bind {A B : Type} (m : result A) (k : A -> result B) : result B :=
  match m with
  | Ok a => k a
  | Raise e => Raise e
  end.

Notation "x <- m ;; k" := (bind m (fun x => k))
  (at level 61, m at next level, right associativity).

(** The values stored in the dictionary that [compute_score] builds. *)
Inductive pyval : Type :=
| PyStr (s : string)
| PyFloat (x : R)
| PyInt (n : Z)
| PyBool (b : bool).

(** A [dict] with string keys, in insertion order. *)
Definition dict (V : Type) : Type := list (string * V).

Fixpoint dict_get {V : Type} (d : dict V) (k : string) : option V :=
  match d with
  | [] => None
  | (k', v) :: d' => if String.eqb k k' then Some v else dict_get d' k
  end.

(** [d[k]] *)
Definition dict_getitem {V : Type} (d : dict V) (k : string) : result V :=
  match dict_get d k with
  | Some v => Ok v
  | None => Raise (KeyError k)
  end.

(** [list(d.keys())] and [d.values()] *)
Definition dict_keys {V : Type} (d : dict V) : list string := map fst d.
Definition dict_values {V : Type} (d : dict V) : list V := map snd d.

(** The largest finite binary64 number, [(2 - 2^-52) * 2^1023]. *)
Definition DBL_MAX : R := IZR (2 ^ 1024 - 2 ^ 971).

(** [math.exp(x)]: raises [OverflowError] when the result is out of range. *)
Definition math_exp (x : R) : result R :=
  if Rlt_dec DBL_MAX (exp x) then Raise OverflowError else Ok (exp x).

(** [a / b] on two [int]s. *)
Definition int_truediv (a b : Z) : result R :=
  if Z.eqb b 0 then Raise ZeroDivisionError
  else if Rlt_dec DBL_MAX (Rabs (IZR a / IZR b)) then Raise OverflowError
  else Ok (IZR a / IZR b).

(** [a / b] on two [float]s. *)
Definition float_div (a b : R) : result R :=
  if Req_dec_T b 0 then Raise ZeroDivisionError else Ok (a / b).

(** [max(a, b)] and [min(a, b)]: the first argument wins a tie. *)
Definition py_max (a b : R) : R := if Rlt_dec a b then b else a.
Definition py_min (a b : R) : R := if Rlt_dec b a then b else a.

(** Nearest integer, a tie going to the even neighbour. *)
Definition round_half_even (y : R) : Z :=
  let n := Zfloor y in
  let r := y - IZR n in
  if Rlt_dec r (1 / 2) then n
  else if Rlt_dec (1 / 2) r then (n + 1)%Z
  else if Z.even n then n else (n + 1)%Z.

(** [round(x, ndigits)] on a [float]. *)
Definition py_round (x : R) (ndigits : nat) : R :=
  IZR (round_half_even (x * 10 ^ ndigits)) / 10 ^ ndigits.

(** The exit status of the process for the outcome of [main]: an uncaught
    exception other than [SystemExit] ends the interpreter with status 1. *)
Definition exit_status {A : Type} (r : result A) : Z :=
  match r with
  | Ok _ => 0%Z
  | Raise (SystemExit code) => code
  | Raise _ => 1%Z
  end.

(** ** The catalog *)

Record Web3Construct : Type := {
  key : string;
  name : string;
  category : string;
  baseline_security : R;
  privacy_factor : R;
  scalability_factor : R;
  description : string
}.

(** The three profiles that the source writes in place as the values of
    [CONSTRUCTS]. *)
Definition aztec_zk : Web3Construct := {|
  key := "aztec-zk";
  name := "Aztec-Style zk Circuit";
  category := "zk privacy";
  baseline_security := 0.81;
  privacy_factor := 0.94;
  scalability_factor := 0.58;
  description :=
    "Circuit-focused private computation with encrypted state roots."
|}.

Definition zama_fhe : Web3Construct := {|
  key := "zama-fhe";
  name := "Zama FHE Compute Layer";
  category := "fhe compute";
  baseline_security := 0.89;
  privacy_factor := 0.87;
  scalability_factor := 0.42;
  description :=
    "Fully homomorphic encrypted computation woven into Web3 data models."
|}.

Definition soundness_lab : Web3Construct := {|
  key := "soundness-lab";
  name := "Soundness-Driven Formal Model";
  category := "formal verification";
  baseline_security := 0.97;
  privacy_factor := 0.51;
  scalability_factor := 0.72;
  description :=
    "Extremely rigorous models built from formal proofs and verified semantics."
|}.

Definition CONSTRUCTS : dict Web3Construct := [
  ("aztec-zk", aztec_zk);
  ("zama-fhe", zama_fhe);
  ("soundness-lab", soundness_lab)
].

(** ** The two arithmetic functions *)

Definition stability_curve (latency_ms sync_ms : R) (throughput : Z)
  : result R :=
  latency_term <- math_exp (- latency_ms / 1500) ;;
  sync_term <- math_exp (- sync_ms / 800) ;;
  load <- int_truediv throughput 10000 ;;
  throughput_term <- float_div 1 (1 + load) ;;
  Ok (py_max 0 (py_min 1 ((latency_term + sync_term + throughput_term) / 3))).

(** The local variable [base] of [compute_score] once the three [if]s have
    run. *)
Definition compute_score_base (construct : Web3Construct)
    (enable_commitments enable_proofs enable_fhe : bool) : R :=
  let base :=
    baseline_security construct * 0.40
    + privacy_factor construct * 0.30
    + scalability_factor construct * 0.30 in
  let base := if enable_commitments then base + 0.04 else base in
  let base := if enable_proofs then base + 0.07 else base in
  let base := if enable_fhe then base + 0.05 else base in
  base.

Definition compute_score (construct : Web3Construct)
    (latency_ms sync_ms : R) (throughput : Z)
    (enable_commitments enable_proofs enable_fhe : bool)
  : result (dict pyval) :=
  let base :=
    compute_score_base construct enable_commitments enable_proofs enable_fhe in
  stability <- stability_curve latency_ms sync_ms throughput ;;
  let final := py_max 0 (py_min 1 (base * stability)) in
  Ok [ ("construct", PyStr (key construct));
       ("name", PyStr (name construct));
       ("category", PyStr (category construct));
       ("description", PyStr (description construct));
       ("latencyMs", PyFloat latency_ms);
       ("syncMs", PyFloat sync_ms);
       ("throughput", PyInt throughput);
       ("enableCommitments", PyBool enable_commitments);
       ("enableProofs", PyBool enable_proofs);
       ("enableFhe", PyBool enable_fhe);
       ("stabilityMultiplier", PyFloat (py_round stability 4));
       ("finalScore", PyFloat (py_round final 4)) ].

(** ** The command line *)

(** The options as they stand on the command line, the numeric ones already
    through their [type=] conversion; [None] is an option left out.  A
    command line that asks for the help of [argparse] ([-h], exit status 0),
    or has a value that does not convert or an option that is not declared
    (exit status 2), never reaches the code of this program and is not a
    [CommandLine]. *)
Record CommandLine : Type := {
  opt_construct : option string;
  opt_latency : option R;
  opt_sync : option R;
  opt_throughput : option Z;
  opt_commitments : bool;
  opt_proofs : bool;
  opt_fhe : bool;
  opt_json : bool
}.

(** What [parse_args] returns. *)
Record Namespace : Type := {
  construct : string;
  latency : R;
  sync : R;
  throughput : Z;
  commitments : bool;
  proofs : bool;
  fhe : bool;
  json : bool
}.

(** An option declared with [choices=]: a value outside the list makes
    [argparse] print the usage and leave with status 2. *)
Definition check_choice (choices : list string) (v : string) : result string :=
  if existsb (String.eqb v) choices then Ok v else Raise (SystemExit 2).

Definition parse_args (argv : CommandLine) : result Namespace :=
  construct <- match opt_construct argv with
               | Some v => check_choice (dict_keys CONSTRUCTS) v
               | None => Ok "aztec-zk"
               end ;;
  Ok {| construct := construct;
        latency := match opt_latency argv with Some x => x | None => 180.0 end;
        sync := match opt_sync argv with Some x => x | None => 950.0 end;
        throughput :=
          match opt_throughput argv with Some n => n | None => 3000%Z end;
        commitments := opt_commitments argv;
        proofs := opt_proofs argv;
        fhe := opt_fhe argv;
        json := opt_json argv |}.

(** What [main] writes to the standard output: the dictionary, through
    [json.dumps] or through [print_human]. *)
Inductive output : Type :=
| JsonDump (d : dict pyval)
| HumanReport (d : dict pyval).

Definition main (argv : CommandLine) : result output :=
  args <- parse_args argv ;;
  construct <- dict_getitem CONSTRUCTS (construct args) ;;
  result <- compute_score construct (latency args) (sync args)
              (throughput args) (commitments args) (proofs args) (fhe args) ;;
  if json args then Ok (JsonDump result) else Ok (HumanReport result).

(** ** The base score in binary64

    The base score again, on the machine numbers of the interpreter: the
    same literals and the same operations in the same order, each rounded to
    binary64. *)

Definition compute_score_base_b64 (attributes : float * float * float)
    (flags : bool * bool * bool) : float :=
  let '(baseline_security, privacy_factor, scalability_factor) := attributes in
  let '(enable_commitments, enable_proofs, enable_fhe) := flags in
  let base :=
    (baseline_security * 0.40 + privacy_factor * 0.30
     + scalability_factor * 0.30)%float in
  let base := if enable_commitments then (base + 0.04)%float else base in
  let base := if enable_proofs then (base + 0.07)%float else base in
  let base := if enable_fhe then (base + 0.05)%float else base in
  base.

(** The numeric attributes of the three catalog entries, in catalog order. *)
Definition CONSTRUCTS_b64 : list (float * float * float) :=
  [ (0.81, 0.94, 0.58); (0.89, 0.87, 0.42); (0.97, 0.51, 0.72) ]%float.

Definition all_flags : list (bool * bool * bool) :=
  list_prod (list_prod [false; true] [false; true]) [false; true].

(** ** The formulas as the specification words them

    These follow the text of the specification, not the code: [clamp] by
    cases, the base score as one sum with the bonuses as summands, and the
    stability as a closed expression over the reals. *)

Definition spec_clamp (x lo hi : R) : R :=
  if Rlt_dec x lo then lo else if Rlt_dec hi x then hi else x.

Definition spec_stability (latencyMs syncMs : R) (throughput : Z) : R :=
  let latencyTerm := exp (- latencyMs / 1500) in
  let syncTerm := exp (- syncMs / 800) in
  let throughputTerm := 1 / (1 + IZR throughput / 10000) in
  spec_clamp ((latencyTerm + syncTerm + throughputTerm) / 3) 0 1.



(** The runtime inputs on which no operation of [stability_curve] raises:
    neither exponential overflows, the quotient [throughput / 10000] is in
    range, and the denominator [1 + throughput / 10000] is not zero. *)
Definition runtime_ok (latency_ms sync_ms : R) (throughput : Z) : Prop :=
  exp (- latency_ms / 1500) <= DBL_MAX
  /\ exp (- sync_ms / 800) <= DBL_MAX
  /\ Rabs (IZR throughput / 10000) <= DBL_MAX
  /\ throughput <> (-10000)%Z.

(** The number stored under key [k], when there is one. *)
Definition float_field (d : dict pyval) (k : string) : option R :=
  match dict_get d k with
  | Some (PyFloat x) => Some x
  | _ => None
  end.

(** The table row of the specification for one preset: the lookup of [k]
    returns a profile with these attributes. *)
Definition preset (k n cat : string) (bs pf sf : R) : Prop :=
  exists c,
    dict_getitem CONSTRUCTS k = Ok c
    /\ key c = k /\ name c = n /\ category c = cat
    /\ baseline_security c = bs /\ privacy_factor c = pf
    /\ scalability_factor c = sf.

(** One flag setting enables at least what another does. *)
Definition flags_le (a b : bool * bool * bool) : Prop :=
  let '(a1, a2, a3) := a in
  let '(b1, b2, b3) := b in
  Bool.le a1 b1 /\ Bool.le a2 b2 /\ Bool.le a3 b3.

(** ** What a command line asks for

    The value [parse_args] gives each option: the one on the command line,
    or the default of its [add_argument]. *)

Definition cli_construct (argv : CommandLine) : string :=
  match opt_construct argv with Some v => v | None => "aztec-zk" end.

Definition cli_latency (argv : CommandLine) : R :=
  match opt_latency argv with Some x => x | None => 180.0 end.

Definition cli_sync (argv : CommandLine) : R :=
  match opt_sync argv with Some x => x | None => 950.0 end.

Definition cli_throughput (argv : CommandLine) : Z :=
  match opt_throughput argv with Some n => n | None => 3000%Z end.

(** The dictionary that [main] hands to its renderer. *)
Definition output_dict (o : output) : dict pyval :=
  match o with
  | JsonDump d => d
  | HumanReport d => d
  end.

(** The command line with no option on it. *)
Definition no_options : CommandLine := {|
  opt_construct := None;
  opt_latency := None;
  opt_sync := None;
  opt_throughput := None;
  opt_commitments := false;
  opt_proofs := false;
  opt_fhe := false;
  opt_json := false
|}.

(** ** The text report

    [print_human] prints fifteen lines, each an f-string over the fields of
    the dictionary.  A field that is missing raises [KeyError]; the format
    [.4f] raises [ValueError] on a string and [OverflowError] on an [int]
    beyond the binary64 range.  The lines printed before an exception stay
    printed. *)

Inductive fmt_exn : Type :=
| FmtKeyError (k : string)
| FmtValueError
| FmtOverflowError.

(** [d[k]] inside an f-string. *)
Definition item (d : dict pyval) (k : string) : pyval + fmt_exn :=
  match dict_get d k with
  | Some v => inl v
  | None => inr (FmtKeyError k)
  end.

Definition fmt_bind {A B : Type} (m : A + fmt_exn) (k : A -> B + fmt_exn)
  : B + fmt_exn :=
  match m with
  | inl a => k a
  | inr e => inr e
  end.

(** [str(n)] for an [int].  (CPython turns down an [int] of more than 4300
    digits; a throughput that [compute_score] accepted has at most 313.) *)
Definition int_str (n : Z) : string := NilZero.string_of_int (Z.to_int n).

(** The decimal digit [d], for [0 <= d <= 9]. *)
Definition digit (d : Z) : ascii := ascii_of_nat (48 + Z.to_nat d).

(** [m] on four digits, for [0 <= m < 10000]. *)
Definition digits4 (m : Z) : string :=
  String (digit (m / 1000))
    (String (digit (m / 100 mod 10))
       (String (digit (m / 10 mod 10))
          (String (digit (m mod 10)) EmptyString))).

(** The numeral with four decimals for [n] ten-thousandths, [n >= 0]. *)
Definition fixed4_digits (n : Z) : string :=
  int_str (n / 10000) ++ "." ++ digits4 (n mod 10000).

(** [format(x, '.4f')] for a [float]: the magnitude rounded to four
    decimals, ties to even, behind the sign of [x]. *)
Definition fixed4 (x : R) : string :=
  (if Rlt_dec x 0 then "-" else "")
  ++ fixed4_digits (round_half_even (Rabs x * 10 ^ 4)).

(** [format(v, '.4f')]: an [int] or a [bool] is converted to [float]
    first.  The conversion is read as exact, like the arithmetic of this
    file: binary64 rounds an [int] beyond 2^53, and accepts those that round
    down to [DBL_MAX].  The dictionaries of [compute_score] hold floats
    under the two formatted fields. *)
Definition format_4f (v : pyval) : string + fmt_exn :=
  match v with
  | PyFloat x => inl (fixed4 x)
  | PyInt n =>
      if Rlt_dec DBL_MAX (Rabs (IZR n)) then inr FmtOverflowError
      else inl (fixed4 (IZR n))
  | PyBool b => inl (fixed4 (if b then 1 else 0))
  | PyStr _ => inr FmtValueError
  end.

(** The sequence of [print] calls: the lines written, and the exception
    that cut the sequence short, if any. *)
Fixpoint print_all (statements : list (string + fmt_exn))
  : list string * option fmt_exn :=
  match statements with
  | [] => ([], None)
  | inl line :: rest =>
      let (out, e) := print_all rest in (line :: out, e)
  | inr e :: _ => ([], Some e)
  end.

Section Report.

(** [str(x)] for a [float], the shortest decimal that reads back as the same
    binary64 number: it is not a function of the real value alone, so the
    report is modelled for any such function. *)
Variable float_str : R -> string.

(** [str(v)], which is what a bare [{...}] of an f-string inserts. *)
Definition py_str (v : pyval) : string :=
  match v with
  | PyStr s => s
  | PyFloat x => float_str x
  | PyInt n => int_str n
  | PyBool b => if b then "True" else "False"
  end.

(** A line made of a label and one field. *)
Definition labelled (label : string) (d : dict pyval) (k : string)
  : string + fmt_exn :=
  fmt_bind (item d k) (fun v => inl (label ++ py_str v)).

Definition labelled_4f (label : string) (d : dict pyval) (k : string)
  : string + fmt_exn :=
  fmt_bind (item d k) (fun v =>
  fmt_bind (format_4f v) (fun s => inl (label ++ s))).

Definition print_human (d : dict pyval) : list string * option fmt_exn :=
  print_all
    [ inl "🧩 Web3 Construct Stability Model";
      fmt_bind (item d "name") (fun n =>
      fmt_bind (item d "construct") (fun c =>
      inl ("Construct     : " ++ py_str n ++ " (" ++ py_str c ++ ")")));
      labelled "Category      : " d "category";
      labelled "Description   : " d "description";
      inl "";
      inl "Parameters:";
      labelled "  Latency (ms)     : " d "latencyMs";
      labelled "  Sync time (ms)   : " d "syncMs";
      labelled "  Throughput load  : " d "throughput";
      labelled "  Commitments      : " d "enableCommitments";
      labelled "  Proofs enabled   : " d "enableProofs";
      labelled "  FHE enabled      : " d "enableFhe";
      inl "";
      labelled_4f "Stability Multiplier : " d "stabilityMultiplier";
      labelled_4f "Final Score          : " d "finalScore" ].

End Report.

(** The fields [print_human] reads, in the order it reads them. *)
Definition report_fields : list string :=
  [ "name"; "construct"; "category"; "description"; "latencyMs"; "syncMs";
    "throughput"; "enableCommitments"; "enableProofs"; "enableFhe";
    "stabilityMultiplier"; "finalScore" ].

(** ** The runtime operations *)

Lemma DBL_MAX_ge_1 : 1 <= DBL_MAX.
Proof.
  unfold DBL_MAX. apply IZR_le. vm_compute. discriminate.
Qed.

Lemma exp_nonpos_le_1 (x : R) : x <= 0 -> exp x <= 1.
Proof.
  intros [Hlt | Heq].
  - rewrite <- exp_0. left. now apply exp_increasing.
  - subst x. rewrite exp_0. lra.
Qed.

Lemma exp_le_mono (x y : R) : x <= y -> exp x <= exp y.
Proof.
  intros [Hlt | Heq].
  - left. now apply exp_increasing.
  - subst y. lra.
Qed.

Lemma math_exp_returns (x : R) : exp x <= DBL_MAX -> math_exp x = Ok (exp x).
Proof.
  intros H. unfold math_exp. destruct (Rlt_dec DBL_MAX (exp x)); [lra | easy].
Qed.

Lemma math_exp_overflow (x : R) :
  DBL_MAX < exp x -> math_exp x = Raise OverflowError.
Proof.
  intros H. unfold math_exp. destruct (Rlt_dec DBL_MAX (exp x)); [easy | lra].
Qed.

Lemma math_exp_inv (x v : R) :
  math_exp x = Ok v -> v = exp x /\ exp x <= DBL_MAX.
Proof.
  unfold math_exp. destruct (Rlt_dec DBL_MAX (exp x)); [discriminate |].
  intros [= <-]. split; [reflexivity | lra].
Qed.

Lemma int_truediv_10000_returns (n : Z) :
  Rabs (IZR n / 10000) <= DBL_MAX ->
  int_truediv n 10000 = Ok (IZR n / 10000).
Proof.
  intros H. unfold int_truediv. simpl.
  destruct (Rlt_dec DBL_MAX (Rabs (IZR n / 10000))); [lra | easy].
Qed.

Lemma int_truediv_10000_inv (n : Z) (v : R) :
  int_truediv n 10000 = Ok v ->
  v = IZR n / 10000 /\ Rabs (IZR n / 10000) <= DBL_MAX.
Proof.
  unfold int_truediv. simpl.
  destruct (Rlt_dec DBL_MAX (Rabs (IZR n / 10000))); [discriminate |].
  intros [= <-]. split; [reflexivity | lra].
Qed.

Lemma float_div_returns (a b : R) : b <> 0 -> float_div a b = Ok (a / b).
Proof.
  intros H. unfold float_div. destruct (Req_dec_T b 0); [contradiction | easy].
Qed.

Lemma float_div_inv (a b v : R) :
  float_div a b = Ok v -> v = a / b /\ b <> 0.
Proof.
  unfold float_div. destruct (Req_dec_T b 0); [discriminate |].
  intros [= <-]. now split.
Qed.

Lemma denominator_zero_iff (n : Z) :
  1 + IZR n / 10000 = 0 <-> n = (-10000)%Z.
Proof.
  split.
  - intros H. apply eq_IZR. lra.
  - intros ->. lra.
Qed.

(** The code's [max(0.0, min(1.0, x))] is the specification's [clamp]. *)
Lemma py_clamp_spec (x : R) : py_max 0 (py_min 1 x) = spec_clamp x 0 1.
Proof.
  unfold py_max, py_min, spec_clamp.
  destruct (Rlt_dec x 1), (Rlt_dec x 0), (Rlt_dec 1 x);
    try destruct (Rlt_dec 0 x); try destruct (Rlt_dec 0 1); lra.
Qed.

Lemma py_clamp_range (x : R) : 0 <= py_max 0 (py_min 1 x) <= 1.
Proof.
  unfold py_max, py_min.
  destruct (Rlt_dec x 1); [destruct (Rlt_dec 0 x) | destruct (Rlt_dec 0 1)];
    lra.
Qed.

Lemma py_clamp_mono (x y : R) :
  x <= y -> py_max 0 (py_min 1 x) <= py_max 0 (py_min 1 y).
Proof.
  intros H. unfold py_max, py_min.
  destruct (Rlt_dec x 1), (Rlt_dec y 1);
    repeat match goal with
           | |- context [Rlt_dec ?a ?b] => destruct (Rlt_dec a b)
           end; lra.
Qed.

Lemma py_clamp_id (x : R) : 0 <= x <= 1 -> py_max 0 (py_min 1 x) = x.
Proof.
  intros H. unfold py_max, py_min.
  destruct (Rlt_dec x 1); [destruct (Rlt_dec 0 x) | destruct (Rlt_dec 0 1)];
    lra.
Qed.

(** ** Rounding *)

Lemma round_half_even_floor (y : R) :
  (Zfloor y <= round_half_even y <= Zfloor y + 1)%Z.
Proof.
  unfold round_half_even.
  destruct (Rlt_dec (y - IZR (Zfloor y)) (1 / 2)); [lia |].
  destruct (Rlt_dec (1 / 2) (y - IZR (Zfloor y))); [lia |].
  destruct (Z.even (Zfloor y)); lia.
Qed.

Lemma round_half_even_IZR (z : Z) : round_half_even (IZR z) = z.
Proof.
  unfold round_half_even. rewrite ZfloorZ.
  destruct (Rlt_dec (IZR z - IZR z) (1 / 2)); [reflexivity | lra].
Qed.

Lemma round_half_even_mono (x y : R) :
  x <= y -> (round_half_even x <= round_half_even y)%Z.
Proof.
  intros Hxy.
  pose proof (Zfloor_le x y Hxy) as Hfl.
  destruct (Z.eq_dec (Zfloor x) (Zfloor y)) as [Heq | Hne].
  - unfold round_half_even. rewrite Heq.
    destruct (Rlt_dec (x - IZR (Zfloor y)) (1 / 2)),
             (Rlt_dec (y - IZR (Zfloor y)) (1 / 2)),
             (Rlt_dec (1 / 2) (x - IZR (Zfloor y))),
             (Rlt_dec (1 / 2) (y - IZR (Zfloor y)));
      destruct (Z.even (Zfloor y)); try lia; lra.
  - pose proof (round_half_even_floor x). pose proof (round_half_even_floor y).
    lia.
Qed.

Lemma round_half_even_lower (z : Z) (y : R) :
  IZR z <= y -> (z <= round_half_even y)%Z.
Proof.
  intros H. rewrite <- (round_half_even_IZR z). now apply round_half_even_mono.
Qed.

Lemma round_half_even_upper (z : Z) (y : R) :
  y <= IZR z -> (round_half_even y <= z)%Z.
Proof.
  intros H. rewrite <- (round_half_even_IZR z). now apply round_half_even_mono.
Qed.

Lemma pow10_4 : 10 ^ 4 = 10000.
Proof. simpl. lra. Qed.

Lemma py_round4_mono (x y : R) : x <= y -> py_round x 4 <= py_round y 4.
Proof.
  intros H. unfold py_round. rewrite pow10_4.
  apply Rmult_le_compat_r; [lra |].
  apply IZR_le, round_half_even_mono. lra.
Qed.

Lemma py_round4_range (x : R) : 0 <= x <= 1 -> 0 <= py_round x 4 <= 1.
Proof.
  intros [H0 H1]. unfold py_round. rewrite pow10_4.
  assert (Hlo : (0 <= round_half_even (x * 10000))%Z)
    by (apply round_half_even_lower; lra).
  assert (Hhi : (round_half_even (x * 10000) <= 10000)%Z)
    by (apply round_half_even_upper; lra).
  apply IZR_le in Hlo, Hhi. lra.
Qed.

(** A number with at most four decimals is its own rounding. *)
Lemma py_round4_exact (z : Z) : py_round (IZR z / 10000) 4 = IZR z / 10000.
Proof.
  unfold py_round. rewrite pow10_4.
  replace (IZR z / 10000 * 10000) with (IZR z) by lra.
  now rewrite round_half_even_IZR.
Qed.

(** ** What [stability_curve] does *)

Lemma stability_curve_returns (l s : R) (t : Z) :
  runtime_ok l s t ->
  stability_curve l s t =
    Ok (py_max 0 (py_min 1
          ((exp (- l / 1500) + exp (- s / 800) + 1 / (1 + IZR t / 10000)) / 3))).
Proof.
  intros (Hl & Hs & Ht & Hz). unfold stability_curve.
  rewrite (math_exp_returns _ Hl). cbn [bind].
  rewrite (math_exp_returns _ Hs). cbn [bind].
  rewrite (int_truediv_10000_returns _ Ht). cbn [bind].
  rewrite float_div_returns; [reflexivity |].
  now rewrite denominator_zero_iff.
Qed.

Lemma stability_curve_inv (l s : R) (t : Z) (v : R) :
  stability_curve l s t = Ok v -> runtime_ok l s t.
Proof.
  unfold stability_curve, runtime_ok.
  destruct (math_exp (- l / 1500)) as [a |] eqn:Ha; [| discriminate].
  cbn [bind].
  destruct (math_exp (- s / 800)) as [b |] eqn:Hb; [| discriminate].
  cbn [bind].
  destruct (int_truediv t 10000) as [q |] eqn:Hq; [| discriminate].
  cbn [bind].
  destruct (float_div 1 (1 + q)) as [d |] eqn:Hd; [| discriminate].
  intros _.
  apply math_exp_inv in Ha, Hb. apply int_truediv_10000_inv in Hq.
  apply float_div_inv in Hd.
  destruct Ha as [_ Ha], Hb as [_ Hb], Hq as [-> Hq], Hd as [_ Hd].
  repeat split; try assumption.
  intros Ht. apply Hd. now apply denominator_zero_iff.
Qed.

Lemma stability_curve_range (l s : R) (t : Z) (v : R) :
  stability_curve l s t = Ok v -> 0 <= v <= 1.
Proof.
  intros H. pose proof (stability_curve_inv _ _ _ _ H) as Hok.
  rewrite (stability_curve_returns _ _ _ Hok) in H.
  injection H as <-. apply py_clamp_range.
Qed.

(** Inputs a caller is likely to pass are fine: a latency and a sync time
    that are not negative, and a throughput that is not [-10000] and whose
    ten-thousandth is in the binary64 range. *)
Lemma runtime_ok_nonneg (l s : R) (t : Z) :
  0 <= l -> 0 <= s -> Rabs (IZR t / 10000) <= DBL_MAX -> t <> (-10000)%Z ->
  runtime_ok l s t.
Proof.
  intros Hl Hs Ht Hz. pose proof DBL_MAX_ge_1.
  repeat split; try assumption.
  - apply Rle_trans with 1; [apply exp_nonpos_le_1; lra | assumption].
  - apply Rle_trans with 1; [apply exp_nonpos_le_1; lra | assumption].
Qed.

Lemma Rabs_small_in_range (n : Z) :
  (Z.abs n <= 10000)%Z -> Rabs (IZR n / 10000) <= DBL_MAX.
Proof.
  intros H. pose proof DBL_MAX_ge_1.
  apply Rle_trans with 1; [| assumption].
  assert (H1 : (-10000 <= n)%Z) by lia.
  assert (H2 : (n <= 10000)%Z) by lia.
  apply IZR_le in H1, H2. apply Rabs_le. lra.
Qed.

(** ** The catalog and the command line *)

Lemma dict_get_absent {V : Type} (d : dict V) (k : string) :
  ~ In k (dict_keys d) -> dict_get d k = None.
Proof.
  induction d as [| [k' v] d IH]; intros Hk; [reflexivity |].
  simpl in *. destruct (String.eqb_spec k k') as [-> | Hne].
  - exfalso. apply Hk. now left.
  - apply IH. intros Hin. apply Hk. now right.
Qed.

Lemma dict_get_present {V : Type} (d : dict V) (k : string) :
  In k (dict_keys d) -> exists v, dict_get d k = Some v.
Proof.
  induction d as [| [k' v] d IH]; intros Hk; [destruct Hk |].
  simpl in *. destruct (String.eqb_spec k k') as [-> | Hne].
  - now exists v.
  - destruct Hk as [Heq | Hin]; [congruence | now apply IH].
Qed.

Lemma check_choice_rejects (choices : list string) (v : string) :
  ~ In v choices -> check_choice choices v = Raise (SystemExit 2).
Proof.
  intros Hv. unfold check_choice.
  destruct (existsb (String.eqb v) choices) eqn:He; [| reflexivity].
  apply existsb_exists in He. destruct He as (x & Hx & Heq).
  apply String.eqb_eq in Heq. subst x. contradiction.
Qed.

Lemma check_choice_accepts (choices : list string) (v : string) :
  In v choices -> check_choice choices v = Ok v.
Proof.
  intros Hv. unfold check_choice.
  destruct (existsb (String.eqb v) choices) eqn:He; [reflexivity |].
  assert (Ht : existsb (String.eqb v) choices = true).
  { apply existsb_exists. exists v. split; [assumption | apply String.eqb_refl]. }
  congruence.
Qed.

(** A key that [parse_args] lets through is a key of the catalog, so the
    subscript in [main] does not raise. *)
Lemma parse_args_construct_known (argv : CommandLine) (args : Namespace) :
  parse_args argv = Ok args -> In (construct args) (dict_keys CONSTRUCTS).
Proof.
  unfold parse_args. destruct (opt_construct argv) as [v |].
  - unfold check_choice.
    destruct (existsb (String.eqb v) (dict_keys CONSTRUCTS)) eqn:He;
      [| discriminate].
    cbn [bind]. intros [= <-]. cbn [construct].
    apply existsb_exists in He. destruct He as (x & Hx & Heq).
    apply String.eqb_eq in Heq. now subst x.
  - cbn [bind]. intros [= <-]. cbn [construct]. simpl. now left.
Qed.

(** C8: the catalog holds the three presets aztec-zk, zama-fhe and
    soundness-lab with the names, categories and the three numeric attributes
    of the specification's table, and the lookup of each of the three keys
    returns that profile. *)
Theorem catalog_presets :
  preset "aztec-zk" "Aztec-Style zk Circuit" "zk privacy" 0.81 0.94 0.58
  /\ preset "zama-fhe" "Zama FHE Compute Layer" "fhe compute" 0.89 0.87 0.42
  /\ preset "soundness-lab" "Soundness-Driven Formal Model"
       "formal verification" 0.97 0.51 0.72
  /\ dict_keys CONSTRUCTS = ["aztec-zk"; "zama-fhe"; "soundness-lab"].
Proof.
  repeat split.
  - exists aztec_zk. repeat split.
  - exists zama_fhe. repeat split.
  - exists soundness_lab. repeat split.
Qed.

(** C9: the lookup of a key that is not a key of the catalog raises (Python's
    [KeyError], the error the specification calls UnknownConstruct) and returns
    no profile; and the command line is closed to such a key: [parse_args]
    leaves with status 2, so [main] ends there, before the lookup and before
    [compute_score], with a non-zero exit status. *)
Theorem unknown_construct_rejected (k : string) :
  ~ In k (dict_keys CONSTRUCTS) ->
  dict_getitem CONSTRUCTS k = Raise (KeyError k)
  /\ forall argv : CommandLine,
       opt_construct argv = Some k ->
       parse_args argv = Raise (SystemExit 2)
       /\ main argv = Raise (SystemExit 2)
       /\ exit_status (main argv) <> 0%Z.
Proof.
  intros Hk. split.
  - unfold dict_getitem. now rewrite dict_get_absent.
  - intros argv Hargv.
    assert (Hp : parse_args argv = Raise (SystemExit 2)).
    { unfold parse_args. rewrite Hargv.
      now rewrite (check_choice_rejects _ _ Hk). }
    assert (Hm : main argv = Raise (SystemExit 2)).
    { unfold main. now rewrite Hp. }
    repeat split; try assumption.
    rewrite Hm. simpl. discriminate.
Qed.

Lemma unknown_construct_rejected_witness :
  dict_getitem CONSTRUCTS "unknown-key" = Raise (KeyError "unknown-key")
  /\ forall argv : CommandLine,
       opt_construct argv = Some "unknown-key" ->
       parse_args argv = Raise (SystemExit 2)
       /\ main argv = Raise (SystemExit 2)
       /\ exit_status (main argv) <> 0%Z.
Proof.
  apply (unknown_construct_rejected "unknown-key").
  simpl. intros [H | [H | [H | []]]]; discriminate H.
Defined.

(** ** The stability multiplier *)

Lemma runtime_ok_origin : runtime_ok 0 0 0.
Proof.
  apply runtime_ok_nonneg; try lra; [| discriminate].
  apply Rabs_small_in_range. simpl. lia.
Qed.

(** C2, amended: on the inputs where none of its operations raises, that
    is where the throughput is not -10000 and the two exponentials and the
    quotient [throughput / 10000] stay in the binary64 range,
    [stability_curve] returns the average of the three terms
    [exp(-latencyMs/1500)], [exp(-syncMs/800)] and [1/(1 + throughput/10000)]
    clamped to [0,1]; on no other input does it return a value. *)
Theorem stability_curve_formula (latency_ms sync_ms : R) (throughput : Z)
    (v : R) :
  stability_curve latency_ms sync_ms throughput = Ok v
  <-> runtime_ok latency_ms sync_ms throughput
      /\ v = spec_stability latency_ms sync_ms throughput.
Proof.
  unfold spec_stability. rewrite <- py_clamp_spec. split.
  - intros H. pose proof (stability_curve_inv _ _ _ _ H) as Hok.
    split; [assumption |].
    rewrite (stability_curve_returns _ _ _ Hok) in H. now injection H.
  - intros [Hok ->]. now apply stability_curve_returns.
Qed.

(** C7: at latency 0, sync 0 and throughput 0 each of the three terms is
    exactly 1, their average is 1, the clamp leaves it alone, and
    [stability_curve] returns exactly 1. *)
Theorem stability_at_origin :
  math_exp (- 0 / 1500) = Ok 1
  /\ math_exp (- 0 / 800) = Ok 1
  /\ (load <- int_truediv 0 10000 ;; float_div 1 (1 + load)) = Ok 1
  /\ (1 + 1 + 1) / 3 = 1
  /\ py_max 0 (py_min 1 1) = 1
  /\ stability_curve 0 0 0 = Ok 1.
Proof.
  pose proof DBL_MAX_ge_1 as HD.
  assert (E1 : math_exp (- 0 / 1500) = Ok 1).
  { replace (- 0 / 1500) with 0 by lra.
    rewrite math_exp_returns; rewrite exp_0; [reflexivity | assumption]. }
  assert (E2 : math_exp (- 0 / 800) = Ok 1).
  { replace (- 0 / 800) with 0 by lra.
    rewrite math_exp_returns; rewrite exp_0; [reflexivity | assumption]. }
  assert (E3 : (load <- int_truediv 0 10000 ;; float_div 1 (1 + load)) = Ok 1).
  { rewrite int_truediv_10000_returns
      by (apply Rabs_small_in_range; simpl; lia).
    cbn [bind]. rewrite float_div_returns by lra. f_equal. lra. }
  assert (E4 : py_max 0 (py_min 1 1) = 1) by (apply py_clamp_id; lra).
  repeat split; try assumption; try lra.
  rewrite (stability_curve_returns _ _ _ runtime_ok_origin).
  replace (- 0 / 1500) with 0 by lra. replace (- 0 / 800) with 0 by lra.
  rewrite exp_0.
  replace ((1 + 1 + 1 / (1 + 0 / 10000)) / 3) with 1 by lra.
  now rewrite E4.
Qed.

(** ** Overflow of the exponential *)

Lemma exp_INR (n : nat) : exp (INR n) = exp 1 ^ n.
Proof.
  induction n as [| n IH].
  - simpl. apply exp_0.
  - rewrite S_INR, exp_plus, IH. simpl. ring.
Qed.

Lemma pow_le_mono_base (a b : R) (n : nat) :
  0 <= a <= b -> a ^ n <= b ^ n.
Proof. intros H. now apply pow_incr. Qed.

(** Arguments up to 600 are safe: [exp 600 <= 3 ^ 600 < DBL_MAX]. *)
Lemma exp_in_range (x : R) : x <= 600 -> exp x <= DBL_MAX.
Proof.
  intros Hx.
  apply Rle_trans with (exp (INR 600)).
  - apply exp_le_mono. rewrite INR_IZR_INZ. simpl. lra.
  - rewrite exp_INR.
    apply Rle_trans with (3 ^ 600).
    + apply pow_le_mono_base. split; [left; apply exp_pos | apply exp_le_3].
    + unfold DBL_MAX. rewrite (pow_IZR 3 600).
      apply IZR_le. vm_compute. discriminate.
Qed.

(** Arguments from 2000 on overflow: [exp 2000 > 2 ^ 2000 > DBL_MAX]. *)
Lemma exp_out_of_range (x : R) : 2000 <= x -> DBL_MAX < exp x.
Proof.
  intros Hx.
  apply Rlt_le_trans with (exp (INR 2000)).
  - rewrite exp_INR.
    apply Rlt_le_trans with (2 ^ 2000).
    + unfold DBL_MAX. rewrite (pow_IZR 2 2000).
      apply IZR_lt. vm_compute. reflexivity.
    + apply pow_le_mono_base. split; [lra |].
      pose proof (exp_ineq1_le 1). lra.
  - apply exp_le_mono. rewrite INR_IZR_INZ. simpl. lra.
Qed.

Lemma int_in_range (n : Z) :
  (Z.abs n <= 10 ^ 300)%Z -> Rabs (IZR n / 10000) <= DBL_MAX.
Proof.
  intros H.
  unfold Rdiv. rewrite Rabs_mult, <- abs_IZR.
  rewrite (Rabs_pos_eq (/ 10000)) by lra.
  apply IZR_le in H.
  assert (HD : IZR (10 ^ 300) <= DBL_MAX).
  { unfold DBL_MAX. apply IZR_le. vm_compute. discriminate. }
  assert (H0 : 0 <= IZR (Z.abs n)) by (apply IZR_le, Z.abs_nonneg).
  lra.
Qed.

(** Every way out of [stability_curve] other than a return is one of the two
    arithmetic exceptions. *)
Lemma stability_curve_raises (l s : R) (t : Z) (e : exn) :
  stability_curve l s t = Raise e ->
  e = ZeroDivisionError \/ e = OverflowError.
Proof.
  unfold stability_curve, math_exp, int_truediv, float_div. simpl.
  destruct (Rlt_dec DBL_MAX (exp (- l / 1500))); cbn [bind];
    [intros [= <-]; now right |].
  destruct (Rlt_dec DBL_MAX (exp (- s / 800))); cbn [bind];
    [intros [= <-]; now right |].
  destruct (Rlt_dec DBL_MAX (Rabs (IZR t / 10000))); cbn [bind];
    [intros [= <-]; now right |].
  destruct (Req_dec_T (1 + IZR t / 10000) 0); cbn [bind];
    [intros [= <-]; now left | discriminate].
Qed.

(** The division by zero: a throughput of [-10000] makes the denominator
    [1 + throughput / 10000] zero. *)
Lemma stability_curve_zero_division (l s : R) :
  exp (- l / 1500) <= DBL_MAX -> exp (- s / 800) <= DBL_MAX ->
  stability_curve l s (-10000) = Raise ZeroDivisionError.
Proof.
  intros Hl Hs. unfold stability_curve.
  rewrite (math_exp_returns _ Hl), (math_exp_returns _ Hs). cbn [bind].
  rewrite int_truediv_10000_returns by (apply Rabs_small_in_range; simpl; lia).
  cbn [bind]. unfold float_div.
  destruct (Req_dec_T (1 + IZR (-10000) / 10000) 0) as [_ | Hne];
    [reflexivity | exfalso; apply Hne; lra].
Qed.

(** The overflow: a latency so negative that [-latency_ms / 1500 >= 2000]. *)
Lemma stability_curve_overflow (l s : R) (t : Z) :
  l <= -3000000 -> stability_curve l s t = Raise OverflowError.
Proof.
  intros Hl. unfold stability_curve.
  rewrite math_exp_overflow; [reflexivity |].
  apply exp_out_of_range. lra.
Qed.

(** ** What [compute_score] does with the multiplier *)

Lemma compute_score_returns (c : Web3Construct) (l s : R) (t : Z)
    (ec ep ef : bool) (st : R) :
  stability_curve l s t = Ok st ->
  exists d,
    compute_score c l s t ec ep ef = Ok d
    /\ float_field d "stabilityMultiplier" = Some (py_round st 4)
    /\ float_field d "finalScore" =
         Some (py_round
                 (py_max 0 (py_min 1 (compute_score_base c ec ep ef * st))) 4).
Proof.
  intros H. unfold compute_score. rewrite H. cbn [bind].
  eexists. split; [reflexivity |]. split; reflexivity.
Qed.

Lemma compute_score_raises (c : Web3Construct) (l s : R) (t : Z)
    (ec ep ef : bool) (e : exn) :
  stability_curve l s t = Raise e ->
  compute_score c l s t ec ep ef = Raise e.
Proof.
  intros H. unfold compute_score. now rewrite H.
Qed.

Lemma compute_score_inv (c : Web3Construct) (l s : R) (t : Z)
    (ec ep ef : bool) (d : dict pyval) :
  compute_score c l s t ec ep ef = Ok d ->
  exists st, stability_curve l s t = Ok st.
Proof.
  destruct (stability_curve l s t) as [st | e] eqn:H.
  - intros _. now exists st.
  - rewrite (compute_score_raises _ _ _ _ _ _ _ _ H). discriminate.
Qed.


Lemma compute_score_base_mono (c : Web3Construct)
    (ec1 ep1 ef1 ec2 ep2 ef2 : bool) :
  flags_le (ec1, ep1, ef1) (ec2, ep2, ef2) ->
  compute_score_base c ec1 ep1 ef1 <= compute_score_base c ec2 ep2 ef2.
Proof.
  intros (Hc & Hp & Hf). unfold compute_score_base.
  destruct ec1, ep1, ef1, ec2, ep2, ef2; simpl in Hc, Hp, Hf;
    try discriminate; lra.
Qed.

(** ** Range and error conditions *)

Lemma runtime_ok_defaults : runtime_ok 180 950 3000.
Proof.
  apply runtime_ok_nonneg; try lra; [| discriminate].
  apply Rabs_small_in_range. simpl. lia.
Qed.

(** C3: on every valid input, that is on every input on which no operation
    of [stability_curve] raises, the multiplier that [stability_curve] returns
    is in [0,1], and [compute_score] returns a dictionary whose finalScore and
    stabilityMultiplier fields are in [0,1], whatever the construct and the
    flags. *)
Theorem scores_in_unit_interval (c : Web3Construct) (latency_ms sync_ms : R)
    (throughput : Z) (ec ep ef : bool) :
  runtime_ok latency_ms sync_ms throughput ->
  exists (st : R) (d : dict pyval) (f m : R),
    stability_curve latency_ms sync_ms throughput = Ok st
    /\ 0 <= st <= 1
    /\ compute_score c latency_ms sync_ms throughput ec ep ef = Ok d
    /\ float_field d "finalScore" = Some f /\ 0 <= f <= 1
    /\ float_field d "stabilityMultiplier" = Some m /\ 0 <= m <= 1.
Proof.
  intros Hok.
  pose proof (stability_curve_returns _ _ _ Hok) as Hst.
  pose proof (stability_curve_range _ _ _ _ Hst) as Hrange.
  destruct (compute_score_returns c _ _ _ ec ep ef _ Hst) as (d & Hd & Hm & Hf).
  eexists. exists d. do 2 eexists.
  split; [exact Hst |]. split; [exact Hrange |]. split; [exact Hd |].
  split; [exact Hf |]. split; [apply py_round4_range, py_clamp_range |].
  split; [exact Hm |]. now apply py_round4_range.
Qed.

Lemma scores_in_unit_interval_witness :
  runtime_ok 180 950 3000
  /\ exists (st : R) (d : dict pyval) (f m : R),
       stability_curve 180 950 3000 = Ok st
       /\ 0 <= st <= 1
       /\ compute_score aztec_zk 180 950 3000 false false false = Ok d
       /\ float_field d "finalScore" = Some f /\ 0 <= f <= 1
       /\ float_field d "stabilityMultiplier" = Some m /\ 0 <= m <= 1.
Proof.
  split; [exact runtime_ok_defaults |].
  apply (scores_in_unit_interval aztec_zk 180 950 3000 false false false).
  exact runtime_ok_defaults.
Defined.

(** C4, as the code has it: [stability_curve] does have error conditions.
    With latency 0 and sync 0, a throughput of -10000 divides by zero. *)
Lemma stability_curve_raises_at_minus_10000 :
  stability_curve 0 0 (-10000) = Raise ZeroDivisionError.
Proof.
  pose proof DBL_MAX_ge_1.
  apply stability_curve_zero_division;
    (apply Rle_trans with 1; [apply exp_nonpos_le_1; lra | assumption]).
Qed.

(** A second error condition: a latency of -3000000 ms overflows the
    exponential. *)
Lemma stability_curve_raises_at_huge_negative_latency :
  stability_curve (-3000000) 0 0 = Raise OverflowError.
Proof. apply stability_curve_overflow. lra. Qed.

(** C4, amended: [stability_curve] returns, and then a value in [0,1],
    exactly on the inputs where the throughput is not -10000 and the two
    exponentials and the quotient [throughput / 10000] stay in the binary64
    range; negative inputs are among them (any latency from -900000 up, any
    sync time from -480000 up, any throughput other than -10000 up to 10^300
    in absolute value); on every other input it raises [ZeroDivisionError] or
    [OverflowError]. *)
Theorem stability_curve_error_conditions (latency_ms sync_ms : R)
    (throughput : Z) :
  (runtime_ok latency_ms sync_ms throughput
   <-> exists v, stability_curve latency_ms sync_ms throughput = Ok v
                 /\ 0 <= v <= 1)
  /\ (-900000 <= latency_ms -> -480000 <= sync_ms ->
      (Z.abs throughput <= 10 ^ 300)%Z -> throughput <> (-10000)%Z ->
      runtime_ok latency_ms sync_ms throughput)
  /\ (~ runtime_ok latency_ms sync_ms throughput ->
      stability_curve latency_ms sync_ms throughput = Raise ZeroDivisionError
      \/ stability_curve latency_ms sync_ms throughput = Raise OverflowError).
Proof.
  split; [| split].
  - split.
    + intros Hok. eexists. split; [now apply stability_curve_returns |].
      apply py_clamp_range.
    + intros (v & Hv & _). exact (stability_curve_inv _ _ _ _ Hv).
  - intros Hl Hs Ht Hz. repeat split.
    + apply exp_in_range. lra.
    + apply exp_in_range. lra.
    + now apply int_in_range.
    + assumption.
  - intros Hno.
    destruct (stability_curve latency_ms sync_ms throughput) as [v | e] eqn:H.
    + exfalso. apply Hno. exact (stability_curve_inv _ _ _ _ H).
    + destruct (stability_curve_raises _ _ _ _ H) as [-> | ->]; auto.
Qed.

Lemma stability_curve_error_conditions_witness :
  exists v, stability_curve (-1500) (-800) (-20000) = Ok v /\ 0 <= v <= 1.
Proof.
  destruct (stability_curve_error_conditions (-1500) (-800) (-20000))
    as (Hiff & Hsuff & _).
  apply Hiff. apply Hsuff; try lra; [| discriminate].
  vm_compute. discriminate.
Defined.

(** ** Monotonicity *)

(** The throughput term [1 / (1 + n / 10000)] falls as [n] grows, as long as
    the denominator keeps its sign. *)
Lemma throughput_term_antitone (n1 n2 : Z) :
  (n1 <= n2)%Z -> (-10000 < n1 \/ n2 < -10000)%Z ->
  1 / (1 + IZR n2 / 10000) <= 1 / (1 + IZR n1 / 10000).
Proof.
  intros Hle Hside. apply IZR_le in Hle.
  unfold Rdiv at 1 3. rewrite !Rmult_1_l.
  destruct Hside as [Hpos | Hneg].
  - apply IZR_lt in Hpos.
    apply Rinv_le_contravar; lra.
  - apply IZR_lt in Hneg.
    apply Ropp_le_cancel. rewrite <- !Rinv_opp.
    apply Rinv_le_contravar; lra.
Qed.

Lemma stability_curve_antitone (l1 l2 s1 s2 : R) (t1 t2 : Z) (v1 v2 : R) :
  l1 <= l2 -> s1 <= s2 -> (t1 <= t2)%Z ->
  (-10000 < t1 \/ t2 < -10000)%Z ->
  stability_curve l1 s1 t1 = Ok v1 ->
  stability_curve l2 s2 t2 = Ok v2 ->
  v2 <= v1.
Proof.
  intros Hl Hs Ht Hside H1 H2.
  pose proof (stability_curve_inv _ _ _ _ H1) as Hok1.
  pose proof (stability_curve_inv _ _ _ _ H2) as Hok2.
  rewrite (stability_curve_returns _ _ _ Hok1) in H1.
  rewrite (stability_curve_returns _ _ _ Hok2) in H2.
  injection H1 as <-. injection H2 as <-.
  apply py_clamp_mono.
  assert (exp (- l2 / 1500) <= exp (- l1 / 1500)) by (apply exp_le_mono; lra).
  assert (exp (- s2 / 800) <= exp (- s1 / 800)) by (apply exp_le_mono; lra).
  pose proof (throughput_term_antitone _ _ Ht Hside).
  lra.
Qed.

(** A larger latency or sync time cannot bring an overflow that the smaller
    one did not. *)
Lemma runtime_ok_latency_sync (l1 l2 s1 s2 : R) (t : Z) :
  l1 <= l2 -> s1 <= s2 -> runtime_ok l1 s1 t -> runtime_ok l2 s2 t.
Proof.
  intros Hl Hs (H1 & H2 & H3 & H4). repeat split; try assumption.
  - apply Rle_trans with (exp (- l1 / 1500)); [apply exp_le_mono; lra |].
    assumption.
  - apply Rle_trans with (exp (- s1 / 800)); [apply exp_le_mono; lra |].
    assumption.
Qed.

Lemma stability_curve_origin : stability_curve 0 0 0 = Ok 1.
Proof.
  rewrite (stability_curve_returns _ _ _ runtime_ok_origin).
  replace (- 0 / 1500) with 0 by lra. replace (- 0 / 800) with 0 by lra.
  rewrite exp_0.
  replace ((1 + 1 + 1 / (1 + 0 / 10000)) / 3) with 1 by lra.
  f_equal. apply py_clamp_id. lra.
Qed.

(** C5, as the code has it: raising the throughput from -20000 to 0, at
    latency 0 and sync 0, raises the stability from 1/3 to 1. *)
Lemma stability_not_monotone_in_throughput :
  (-20000 <= 0)%Z
  /\ stability_curve 0 0 (-20000) = Ok (1 / 3)
  /\ stability_curve 0 0 0 = Ok 1
  /\ 1 / 3 < 1.
Proof.
  split; [discriminate |]. split; [| split; [| lra]].
  - assert (Hok : runtime_ok 0 0 (-20000)).
    { apply runtime_ok_nonneg; try lra; [| discriminate].
      apply int_in_range. vm_compute. discriminate. }
    rewrite (stability_curve_returns _ _ _ Hok).
    replace (- 0 / 1500) with 0 by lra. replace (- 0 / 800) with 0 by lra.
    rewrite exp_0.
    replace ((1 + 1 + 1 / (1 + IZR (-20000) / 10000)) / 3) with (1 / 3) by lra.
    f_equal. apply py_clamp_id. lra.
  - exact stability_curve_origin.
Qed.

(** C5, amended: with the other two inputs fixed, a larger latency never
    gives a larger stability, nor does a larger sync time (and the call with
    the larger value returns whenever the call with the smaller one does); a
    larger throughput never gives a larger stability as long as the two
    throughputs lie on the same side of -10000, both above it or both below
    it. *)
Theorem stability_monotone :
  (forall (l1 l2 s : R) (t : Z) (v1 : R),
      l1 <= l2 -> stability_curve l1 s t = Ok v1 ->
      exists v2, stability_curve l2 s t = Ok v2 /\ v2 <= v1)
  /\ (forall (l s1 s2 : R) (t : Z) (v1 : R),
      s1 <= s2 -> stability_curve l s1 t = Ok v1 ->
      exists v2, stability_curve l s2 t = Ok v2 /\ v2 <= v1)
  /\ (forall (l s : R) (t1 t2 : Z) (v1 v2 : R),
      (t1 <= t2)%Z -> (-10000 < t1 \/ t2 < -10000)%Z ->
      stability_curve l s t1 = Ok v1 -> stability_curve l s t2 = Ok v2 ->
      v2 <= v1).
Proof.
  split; [| split].
  - intros l1 l2 s t v1 Hl H1.
    pose proof (stability_curve_inv _ _ _ _ H1) as Hok1.
    assert (Hok2 : runtime_ok l2 s t)
      by (apply (runtime_ok_latency_sync l1 l2 s s); [| lra |]; assumption).
    pose proof (stability_curve_returns _ _ _ Hok1) as E1.
    pose proof (stability_curve_returns _ _ _ Hok2) as E2.
    rewrite E1 in H1. injection H1 as <-.
    eexists. split; [exact E2 |].
    apply py_clamp_mono.
    assert (exp (- l2 / 1500) <= exp (- l1 / 1500)) by (apply exp_le_mono; lra).
    lra.
  - intros l s1 s2 t v1 Hs H1.
    pose proof (stability_curve_inv _ _ _ _ H1) as Hok1.
    assert (Hok2 : runtime_ok l s2 t)
      by (apply (runtime_ok_latency_sync l l s1 s2); [lra | |]; assumption).
    pose proof (stability_curve_returns _ _ _ Hok1) as E1.
    pose proof (stability_curve_returns _ _ _ Hok2) as E2.
    rewrite E1 in H1. injection H1 as <-.
    eexists. split; [exact E2 |].
    apply py_clamp_mono.
    assert (exp (- s2 / 800) <= exp (- s1 / 800)) by (apply exp_le_mono; lra).
    lra.
  - intros l s t1 t2 v1 v2 Ht Hside H1 H2.
    apply (stability_curve_antitone l l s s t1 t2); try assumption; lra.
Qed.

Lemma stability_monotone_witness :
  0 <= 180
  /\ exists v2, stability_curve 180 0 0 = Ok v2 /\ v2 <= 1.
Proof.
  split; [lra |].
  destruct stability_monotone as (Hlat & _).
  apply (Hlat 0 180 0 0%Z 1); [lra | exact stability_curve_origin].
Defined.

(** ** The score *)

(** C6: with the construct and the runtime inputs fixed, a run with more
    flags enabled has a finalScore at least that of the run with those flags
    disabled. *)
Theorem flags_never_decrease (c : Web3Construct) (latency_ms sync_ms : R)
    (throughput : Z) (ec1 ep1 ef1 ec2 ep2 ef2 : bool) (d1 : dict pyval) :
  flags_le (ec1, ep1, ef1) (ec2, ep2, ef2) ->
  compute_score c latency_ms sync_ms throughput ec1 ep1 ef1 = Ok d1 ->
  exists (d2 : dict pyval) (f1 f2 : R),
    compute_score c latency_ms sync_ms throughput ec2 ep2 ef2 = Ok d2
    /\ float_field d1 "finalScore" = Some f1
    /\ float_field d2 "finalScore" = Some f2
    /\ f1 <= f2.
Proof.
  intros Hle H1.
  destruct (compute_score_inv _ _ _ _ _ _ _ _ H1) as (st & Hst).
  destruct (compute_score_returns c _ _ _ ec1 ep1 ef1 _ Hst)
    as (d1' & Hd1 & _ & Hf1).
  destruct (compute_score_returns c _ _ _ ec2 ep2 ef2 _ Hst)
    as (d2 & Hd2 & _ & Hf2).
  assert (d1' = d1) by congruence. subst d1'.
  exists d2. do 2 eexists.
  split; [exact Hd2 |]. split; [exact Hf1 |]. split; [exact Hf2 |].
  apply py_round4_mono, py_clamp_mono.
  pose proof (stability_curve_range _ _ _ _ Hst) as [Hst0 _].
  pose proof (compute_score_base_mono c _ _ _ _ _ _ Hle).
  now apply Rmult_le_compat_r.
Qed.

Lemma flags_never_decrease_witness :
  flags_le (false, false, false) (true, true, true)
  /\ exists (d1 d2 : dict pyval) (f1 f2 : R),
       compute_score aztec_zk 180 950 3000 false false false = Ok d1
       /\ compute_score aztec_zk 180 950 3000 true true true = Ok d2
       /\ float_field d1 "finalScore" = Some f1
       /\ float_field d2 "finalScore" = Some f2
       /\ f1 <= f2.
Proof.
  assert (Hle : flags_le (false, false, false) (true, true, true))
    by (simpl; auto).
  split; [exact Hle |].
  destruct (compute_score_returns aztec_zk _ _ _ false false false _
              (stability_curve_returns _ _ _ runtime_ok_defaults))
    as (d1 & Hd1 & _).
  destruct (flags_never_decrease aztec_zk 180 950 3000
              false false false true true true d1 Hle Hd1)
    as (d2 & f1 & f2 & Hd2 & Hf1 & Hf2 & Hf).
  exists d1, d2, f1, f2. auto.
Defined.

Lemma catalog_values (c : Web3Construct) :
  In c (dict_values CONSTRUCTS) ->
  c = aztec_zk \/ c = zama_fhe \/ c = soundness_lab.
Proof.
  simpl. intros [H | [H | [H | []]]]; auto.
Qed.


(** The formula of C2 at the origin. *)
Lemma stability_curve_formula_witness :
  stability_curve 0 0 0 = Ok (spec_stability 0 0 0).
Proof.
  apply (stability_curve_formula 0 0 0 (spec_stability 0 0 0)).
  split; [exact runtime_ok_origin | reflexivity].
Defined.

(** ** The base score in binary64 *)

(** On machine numbers the largest base score, aztec-zk with the three
    flags, comes out two units in the last place above the double 0.94; the
    smallest, zama-fhe with no flag, is the double 0.743. *)
Lemma compute_score_base_b64_extremes :
  compute_score_base_b64 (0.81, 0.94, 0.58)%float (true, true, true)
    = 0.9400000000000002%float
  /\ (0.94 <? 0.9400000000000002)%float = true
  /\ compute_score_base_b64 (0.89, 0.87, 0.42)%float (false, false, false)
      = 0.743%float.
Proof. repeat split. Qed.

(** Every base score of the catalog stays between those two: the rounding
    moves the bounds of the exact computation by less than [1e-15], far from
    what it would take for the clamp of [compute_score] to act. *)
Lemma compute_score_base_b64_range :
  forallb
    (fun attributes =>
       forallb
         (fun flags =>
            let base := compute_score_base_b64 attributes flags in
            (0.743 <=? base)%float && (base <=? 0.9400000000000002)%float)
         all_flags)
    CONSTRUCTS_b64 = true.
Proof. vm_compute. reflexivity. Qed.

(** ** The whole run *)

Lemma parse_args_accepts (argv : CommandLine) :
  In (cli_construct argv) (dict_keys CONSTRUCTS) ->
  parse_args argv =
    Ok {| construct := cli_construct argv;
          latency := cli_latency argv;
          sync := cli_sync argv;
          throughput := cli_throughput argv;
          commitments := opt_commitments argv;
          proofs := opt_proofs argv;
          fhe := opt_fhe argv;
          json := opt_json argv |}.
Proof.
  unfold parse_args, cli_construct, cli_latency, cli_sync, cli_throughput.
  destruct (opt_construct argv) as [v |]; intros Hin.
  - now rewrite (check_choice_accepts _ _ Hin).
  - reflexivity.
Qed.

Lemma parse_args_rejects (argv : CommandLine) :
  ~ In (cli_construct argv) (dict_keys CONSTRUCTS) ->
  parse_args argv = Raise (SystemExit 2).
Proof.
  unfold parse_args, cli_construct.
  destruct (opt_construct argv) as [v |]; intros Hin.
  - now rewrite (check_choice_rejects _ _ Hin).
  - exfalso. apply Hin. simpl. now left.
Qed.

Lemma In_keys_dec (k : string) :
  {In k (dict_keys CONSTRUCTS)} + {~ In k (dict_keys CONSTRUCTS)}.
Proof. apply in_dec, string_dec. Qed.

(** Every entry of the catalog is filed under its own [key]. *)
Lemma catalog_key_consistent (k : string) (c : Web3Construct) :
  dict_get CONSTRUCTS k = Some c -> key c = k.
Proof.
  simpl.
  destruct (String.eqb_spec k "aztec-zk") as [-> | _]; [now intros [= <-] |].
  destruct (String.eqb_spec k "zama-fhe") as [-> | _]; [now intros [= <-] |].
  destruct (String.eqb_spec k "soundness-lab") as [-> | _];
    [now intros [= <-] | discriminate].
Qed.

(** Past [parse_args], [main] is [compute_score] on the entry filed under
    the requested key, followed by the choice of the renderer. *)
Lemma main_accepted (argv : CommandLine) :
  In (cli_construct argv) (dict_keys CONSTRUCTS) ->
  exists c,
    dict_get CONSTRUCTS (cli_construct argv) = Some c
    /\ key c = cli_construct argv
    /\ In c (dict_values CONSTRUCTS)
    /\ main argv =
         (result <- compute_score c (cli_latency argv) (cli_sync argv)
                      (cli_throughput argv) (opt_commitments argv)
                      (opt_proofs argv) (opt_fhe argv) ;;
          if opt_json argv then Ok (JsonDump result)
          else Ok (HumanReport result)).
Proof.
  intros Hin.
  destruct (dict_get_present _ _ Hin) as (c & Hc).
  exists c. split; [exact Hc |]. split; [now apply catalog_key_consistent |].
  split.
  - revert Hc. simpl.
    destruct (cli_construct argv =? "aztec-zk"); [intros [= <-]; auto |].
    destruct (cli_construct argv =? "zama-fhe"); [intros [= <-]; auto |].
    destruct (cli_construct argv =? "soundness-lab");
      [intros [= <-]; auto | discriminate].
  - unfold main. rewrite (parse_args_accepts _ Hin). cbn [bind construct].
    unfold dict_getitem. rewrite Hc. reflexivity.
Qed.

Lemma main_runs (argv : CommandLine) :
  In (cli_construct argv) (dict_keys CONSTRUCTS) ->
  runtime_ok (cli_latency argv) (cli_sync argv) (cli_throughput argv) ->
  exists o, main argv = Ok o.
Proof.
  intros Hin Hok. destruct (main_accepted _ Hin) as (c & _ & _ & _ & ->).
  pose proof (stability_curve_returns _ _ _ Hok) as Hst.
  destruct (compute_score_returns c _ _ _ (opt_commitments argv)
              (opt_proofs argv) (opt_fhe argv) _ Hst) as (d & -> & _).
  cbn [bind]. destruct (opt_json argv); eauto.
Qed.

Lemma main_crashes (argv : CommandLine) :
  In (cli_construct argv) (dict_keys CONSTRUCTS) ->
  ~ runtime_ok (cli_latency argv) (cli_sync argv) (cli_throughput argv) ->
  main argv = Raise ZeroDivisionError \/ main argv = Raise OverflowError.
Proof.
  intros Hin Hno. destruct (main_accepted _ Hin) as (c & _ & _ & _ & ->).
  destruct (stability_curve (cli_latency argv) (cli_sync argv)
              (cli_throughput argv)) as [v | e] eqn:H.
  - exfalso. apply Hno. exact (stability_curve_inv _ _ _ _ H).
  - rewrite (compute_score_raises _ _ _ _ _ _ _ _ H). cbn [bind].
    destruct (stability_curve_raises _ _ _ _ H) as [-> | ->]; auto.
Qed.

Lemma main_outcome_cases (argv : CommandLine) :
  (exists o, main argv = Ok o)
  \/ main argv = Raise (SystemExit 2)
  \/ main argv = Raise ZeroDivisionError
  \/ main argv = Raise OverflowError.
Proof.
  destruct (In_keys_dec (cli_construct argv)) as [Hin | Hout].
  - destruct (stability_curve (cli_latency argv) (cli_sync argv)
                (cli_throughput argv)) as [v | e] eqn:Hst.
    + left. apply main_runs; [assumption |].
      exact (stability_curve_inv _ _ _ _ Hst).
    + right. right. apply main_crashes; [assumption |].
      intros Hok. rewrite (stability_curve_returns _ _ _ Hok) in Hst.
      discriminate.
  - right. left. unfold main. now rewrite (parse_args_rejects _ Hout).
Qed.

(** X1: [main] never lets a [KeyError] out: the subscript
    [CONSTRUCTS[args.construct]] cannot fail, because [parse_args] lets only
    the keys of the catalog through and its default is one of them. *)
Theorem main_never_raises_key_error (argv : CommandLine) (k : string) :
  main argv <> Raise (KeyError k).
Proof.
  intros Hk.
  destruct (main_outcome_cases argv) as [(o & Ho) | [Ho | [Ho | Ho]]];
    rewrite Hk in Ho; discriminate.
Qed.

(** X2: for a command line made of the eight declared options with values
    that convert (so [argparse] neither prints its help nor turns a value
    down), the exit status of the run is 0 exactly when the requested
    construct is in the catalog and the runtime inputs are ones
    [stability_curve] accepts, 2 exactly when the construct is not in the
    catalog, and 1 (an uncaught exception) exactly when the construct is
    known and [stability_curve] raises. *)
Theorem main_exit_status (argv : CommandLine) :
  (exit_status (main argv) = 0%Z
   <-> In (cli_construct argv) (dict_keys CONSTRUCTS)
       /\ runtime_ok (cli_latency argv) (cli_sync argv) (cli_throughput argv))
  /\ (exit_status (main argv) = 2%Z
      <-> ~ In (cli_construct argv) (dict_keys CONSTRUCTS))
  /\ (exit_status (main argv) = 1%Z
      <-> In (cli_construct argv) (dict_keys CONSTRUCTS)
          /\ ~ runtime_ok (cli_latency argv) (cli_sync argv)
                 (cli_throughput argv)).
Proof.
  destruct (In_keys_dec (cli_construct argv)) as [Hin | Hout].
  - destruct (stability_curve (cli_latency argv) (cli_sync argv)
                (cli_throughput argv)) as [v | e] eqn:Hst.
    + pose proof (stability_curve_inv _ _ _ _ Hst) as Hok.
      destruct (main_runs _ Hin Hok) as (o & ->). cbn [exit_status].
      intuition congruence.
    + assert (Hno : ~ runtime_ok (cli_latency argv) (cli_sync argv)
                      (cli_throughput argv)).
      { intros Hok. rewrite (stability_curve_returns _ _ _ Hok) in Hst.
        discriminate. }
      destruct (main_crashes _ Hin Hno) as [-> | ->]; cbn [exit_status];
        intuition congruence.
  - unfold main. rewrite (parse_args_rejects _ Hout). cbn [bind exit_status].
    intuition congruence.
Qed.

(** X3: a run that asks for a throughput of -10000, with a known construct
    and a latency and a sync time that are not negative, is ended by a
    [ZeroDivisionError]: exit status 1, nothing rendered. *)
Theorem main_throughput_minus_10000 (argv : CommandLine) :
  In (cli_construct argv) (dict_keys CONSTRUCTS) ->
  0 <= cli_latency argv -> 0 <= cli_sync argv ->
  opt_throughput argv = Some (-10000)%Z ->
  main argv = Raise ZeroDivisionError /\ exit_status (main argv) = 1%Z.
Proof.
  intros Hin Hl Hs Ht. pose proof DBL_MAX_ge_1.
  destruct (main_accepted _ Hin) as (c & _ & _ & _ & ->).
  unfold cli_throughput. rewrite Ht.
  rewrite (compute_score_raises c _ _ _ _ _ _ ZeroDivisionError).
  - now split.
  - apply stability_curve_zero_division;
      (apply Rle_trans with 1; [apply exp_nonpos_le_1; lra | assumption]).
Qed.

Lemma main_throughput_minus_10000_witness :
  main {| opt_construct := Some "zama-fhe";
          opt_latency := None;
          opt_sync := None;
          opt_throughput := Some (-10000)%Z;
          opt_commitments := false;
          opt_proofs := true;
          opt_fhe := false;
          opt_json := true |} = Raise ZeroDivisionError.
Proof.
  apply main_throughput_minus_10000.
  - simpl. auto.
  - unfold cli_latency. cbn [opt_latency]. lra.
  - unfold cli_sync. cbn [opt_sync]. lra.
  - reflexivity.
Defined.

(** ** The multiplier on inputs that are not negative *)

Lemma throughput_term_pos (n : Z) :
  (-10000 < n)%Z -> 0 < 1 / (1 + IZR n / 10000).
Proof.
  intros H. apply IZR_lt in H.
  unfold Rdiv at 1. rewrite Rmult_1_l. apply Rinv_0_lt_compat. lra.
Qed.

Lemma throughput_term_le_1 (n : Z) :
  (0 <= n)%Z -> 1 / (1 + IZR n / 10000) <= 1.
Proof.
  intros H. apply IZR_le in H.
  unfold Rdiv at 1. rewrite Rmult_1_l.
  apply Rle_trans with (/ 1); [apply Rinv_le_contravar; lra |].
  rewrite Rinv_1. lra.
Qed.

(** The average of the three terms before the clamp. *)
Lemma stability_average_bounds (l s : R) (t : Z) :
  0 <= l -> 0 <= s -> (0 <= t)%Z ->
  0 < (exp (- l / 1500) + exp (- s / 800) + 1 / (1 + IZR t / 10000)) / 3 <= 1.
Proof.
  intros Hl Hs Ht.
  pose proof (exp_pos (- l / 1500)). pose proof (exp_pos (- s / 800)).
  assert (exp (- l / 1500) <= 1) by (apply exp_nonpos_le_1; lra).
  assert (exp (- s / 800) <= 1) by (apply exp_nonpos_le_1; lra).
  assert (0 < 1 / (1 + IZR t / 10000)) by (apply throughput_term_pos; lia).
  pose proof (throughput_term_le_1 t Ht).
  lra.
Qed.

Lemma runtime_ok_throughput_nonneg (l s : R) (t : Z) (v : R) :
  0 <= l -> 0 <= s -> stability_curve l s t = Ok v -> (0 <= t)%Z ->
  v = (exp (- l / 1500) + exp (- s / 800) + 1 / (1 + IZR t / 10000)) / 3.
Proof.
  intros Hl Hs H Ht.
  pose proof (stability_curve_inv _ _ _ _ H) as Hok.
  rewrite (stability_curve_returns _ _ _ Hok) in H. injection H as <-.
  apply py_clamp_id. pose proof (stability_average_bounds l s t Hl Hs Ht). lra.
Qed.

(** X4: when latency, sync time and throughput are not negative (and the
    throughput is within the binary64 range), the clamp of [stability_curve]
    does nothing: the call returns the plain average of the three terms, and
    that average is greater than 0 and at most 1. *)
Theorem stability_nonneg_unclamped (latency_ms sync_ms : R) (throughput : Z) :
  0 <= latency_ms -> 0 <= sync_ms ->
  (0 <= throughput <= 10 ^ 300)%Z ->
  stability_curve latency_ms sync_ms throughput =
    Ok ((exp (- latency_ms / 1500) + exp (- sync_ms / 800)
         + 1 / (1 + IZR throughput / 10000)) / 3)
  /\ 0 < (exp (- latency_ms / 1500) + exp (- sync_ms / 800)
          + 1 / (1 + IZR throughput / 10000)) / 3 <= 1.
Proof.
  intros Hl Hs [Ht0 Ht1].
  pose proof (stability_average_bounds _ _ _ Hl Hs Ht0) as Hb.
  split; [| exact Hb].
  assert (Hok : runtime_ok latency_ms sync_ms throughput).
  { apply runtime_ok_nonneg; try assumption; [| lia].
    apply int_in_range. lia. }
  rewrite (stability_curve_returns _ _ _ Hok). f_equal.
  apply py_clamp_id. lra.
Qed.

Lemma stability_nonneg_unclamped_witness :
  stability_curve 180 950 3000 =
    Ok ((exp (- 180 / 1500) + exp (- 950 / 800) + 1 / (1 + 3000 / 10000)) / 3).
Proof.
  apply (stability_nonneg_unclamped 180 950 3000); try lra.
  split; [discriminate | vm_compute; discriminate].
Defined.

(** ** Where the clamp acts *)

(** X7: the upper clamp acts on negative latencies: from a latency of -3000
    ms down, with a throughput above -10000, whatever [stability_curve]
    returns is exactly 1, for every sync time. *)
Theorem stability_saturates_at_one (latency_ms sync_ms : R) (throughput : Z)
    (v : R) :
  latency_ms <= -3000 -> (-10000 < throughput)%Z ->
  stability_curve latency_ms sync_ms throughput = Ok v ->
  v = 1.
Proof.
  intros Hl Ht H.
  pose proof (stability_curve_inv _ _ _ _ H) as Hok.
  rewrite (stability_curve_returns _ _ _ Hok) in H. injection H as <-.
  assert (E1 : 3 <= exp (- latency_ms / 1500)).
  { apply Rle_trans with (exp 2); [| apply exp_le_mono; lra].
    pose proof (exp_ineq1_le 2). lra. }
  pose proof (exp_pos (- sync_ms / 800)).
  pose proof (throughput_term_pos _ Ht).
  unfold py_max, py_min.
  destruct (Rlt_dec _ 1); [lra |]. destruct (Rlt_dec 0 1); lra.
Qed.

Lemma stability_saturates_at_one_witness :
  stability_curve (-3000) 950 3000 = Ok 1.
Proof.
  assert (Hok : runtime_ok (-3000) 950 3000).
  { repeat split.
    - apply exp_in_range. lra.
    - apply exp_in_range. lra.
    - apply Rabs_small_in_range. simpl. lia.
    - discriminate. }
  rewrite (stability_curve_returns _ _ _ Hok). f_equal.
  apply (stability_saturates_at_one (-3000) 950 3000);
    [lra | reflexivity | exact (stability_curve_returns _ _ _ Hok)].
Defined.

Lemma py_round4_zero : py_round 0 4 = 0.
Proof.
  replace 0 with (IZR 0 / 10000) at 1 by lra.
  rewrite py_round4_exact. lra.
Qed.

(** X8: the lower clamp acts on throughputs just below -10000: with a
    latency and a sync time that are not negative and a throughput from
    -15000 to -10001, [stability_curve] returns exactly 0, and
    [compute_score] then reports a finalScore of 0 for every construct and
    every flag setting. *)
Theorem stability_saturates_at_zero (c : Web3Construct)
    (latency_ms sync_ms : R) (throughput : Z) (ec ep ef : bool) :
  0 <= latency_ms -> 0 <= sync_ms ->
  (-15000 <= throughput < -10000)%Z ->
  stability_curve latency_ms sync_ms throughput = Ok 0
  /\ exists d,
       compute_score c latency_ms sync_ms throughput ec ep ef = Ok d
       /\ float_field d "stabilityMultiplier" = Some 0
       /\ float_field d "finalScore" = Some 0.
Proof.
  intros Hl Hs [Ht1 Ht2].
  assert (Hok : runtime_ok latency_ms sync_ms throughput).
  { apply runtime_ok_nonneg; try assumption; [| lia].
    apply int_in_range.
    apply Z.le_trans with 15000%Z; [lia | vm_compute; discriminate]. }
  assert (Hst : stability_curve latency_ms sync_ms throughput = Ok 0).
  { rewrite (stability_curve_returns _ _ _ Hok). f_equal.
    assert (exp (- latency_ms / 1500) <= 1) by (apply exp_nonpos_le_1; lra).
    assert (exp (- sync_ms / 800) <= 1) by (apply exp_nonpos_le_1; lra).
    assert (Ht : 1 / (1 + IZR throughput / 10000) <= -2).
    { apply IZR_le in Ht1. apply IZR_lt in Ht2.
      unfold Rdiv at 1. rewrite Rmult_1_l.
      apply Ropp_le_cancel. rewrite <- Rinv_opp.
      replace (- -2) with (/ / 2) by (rewrite Rinv_inv; lra).
      apply Rinv_le_contravar; lra. }
    unfold py_max, py_min.
    destruct (Rlt_dec _ 1); [| lra]. destruct (Rlt_dec 0 _); lra. }
  split; [exact Hst |].
  destruct (compute_score_returns c _ _ _ ec ep ef _ Hst) as (d & Hd & Hm & Hf).
  exists d. split; [exact Hd |].
  rewrite Hm, Hf, Rmult_0_r, (py_clamp_id 0) by lra.
  now rewrite py_round4_zero.
Qed.

Lemma stability_saturates_at_zero_witness :
  stability_curve 180 950 (-12000) = Ok 0.
Proof.
  apply (stability_saturates_at_zero aztec_zk 180 950 (-12000)
           true true true); [lra | lra | lia].
Defined.

(** ** The two rounded fields *)





Lemma catalog_base_bounds (c : Web3Construct) (ec ep ef : bool) :
  In c (dict_values CONSTRUCTS) ->
  0.743 <= compute_score_base c ec ep ef <= 0.94.
Proof.
  intros Hc. destruct (catalog_values c Hc) as [-> | [-> | ->]];
    unfold compute_score_base; destruct ec, ep, ef; simpl; lra.
Qed.

(** X10: for a construct of the catalog the reported finalScore never
    exceeds the reported stabilityMultiplier, whatever the flags and the
    runtime inputs. *)
Theorem final_score_at_most_multiplier (c : Web3Construct)
    (latency_ms sync_ms : R) (throughput : Z) (ec ep ef : bool)
    (d : dict pyval) :
  In c (dict_values CONSTRUCTS) ->
  compute_score c latency_ms sync_ms throughput ec ep ef = Ok d ->
  exists f m : R,
    float_field d "finalScore" = Some f
    /\ float_field d "stabilityMultiplier" = Some m
    /\ f <= m.
Proof.
  intros Hc Hd.
  destruct (compute_score_inv _ _ _ _ _ _ _ _ Hd) as (st & Hst).
  destruct (compute_score_returns c _ _ _ ec ep ef _ Hst) as (d' & Hd' & Hm & Hf).
  assert (d' = d) by congruence. subst d'.
  do 2 eexists. split; [exact Hf |]. split; [exact Hm |].
  pose proof (stability_curve_range _ _ _ _ Hst) as Hr.
  pose proof (catalog_base_bounds c ec ep ef Hc) as Hb.
  apply py_round4_mono. rewrite py_clamp_id; nra.
Qed.

Lemma final_score_at_most_multiplier_witness :
  exists (d : dict pyval) (f m : R),
    compute_score soundness_lab 180 950 3000 true true true = Ok d
    /\ float_field d "finalScore" = Some f
    /\ float_field d "stabilityMultiplier" = Some m
    /\ f <= m.
Proof.
  destruct (compute_score_returns soundness_lab _ _ _ true true true _
              (stability_curve_returns _ _ _ runtime_ok_defaults))
    as (d & Hd & _).
  assert (Hin : In soundness_lab (dict_values CONSTRUCTS)) by (simpl; auto).
  destruct (final_score_at_most_multiplier soundness_lab 180 950 3000
              true true true d Hin Hd) as (f & m & Hf & Hm & Hle).
  exists d, f, m. auto.
Defined.

(** X11: for a construct of the catalog and fixed flags, the reported
    finalScore does not grow with the inputs: a run whose latency, sync time
    and throughput are each at least those of another run (throughputs above
    -10000) reports a finalScore no larger. *)
Theorem final_score_antitone (c : Web3Construct) (l1 l2 s1 s2 : R)
    (t1 t2 : Z) (ec ep ef : bool) (d1 d2 : dict pyval) :
  In c (dict_values CONSTRUCTS) ->
  l1 <= l2 -> s1 <= s2 -> (-10000 < t1 <= t2)%Z ->
  compute_score c l1 s1 t1 ec ep ef = Ok d1 ->
  compute_score c l2 s2 t2 ec ep ef = Ok d2 ->
  exists f1 f2 : R,
    float_field d1 "finalScore" = Some f1
    /\ float_field d2 "finalScore" = Some f2
    /\ f2 <= f1.
Proof.
  intros Hc Hl Hs [Ht1 Ht2] H1 H2.
  destruct (compute_score_inv _ _ _ _ _ _ _ _ H1) as (v1 & Hv1).
  destruct (compute_score_inv _ _ _ _ _ _ _ _ H2) as (v2 & Hv2).
  destruct (compute_score_returns c _ _ _ ec ep ef _ Hv1) as (d1' & E1 & _ & F1).
  destruct (compute_score_returns c _ _ _ ec ep ef _ Hv2) as (d2' & E2 & _ & F2).
  assert (d1' = d1) by congruence. assert (d2' = d2) by congruence.
  subst d1' d2'.
  do 2 eexists. split; [exact F1 |]. split; [exact F2 |].
  apply py_round4_mono, py_clamp_mono.
  assert (Hv : v2 <= v1)
    by (apply (stability_curve_antitone l1 l2 s1 s2 t1 t2); auto).
  pose proof (catalog_base_bounds c ec ep ef Hc).
  apply Rmult_le_compat_l; lra.
Qed.

Lemma final_score_antitone_witness :
  exists (d1 d2 : dict pyval) (f1 f2 : R),
    compute_score aztec_zk 0 0 0 false false false = Ok d1
    /\ compute_score aztec_zk 180 950 3000 false false false = Ok d2
    /\ float_field d1 "finalScore" = Some f1
    /\ float_field d2 "finalScore" = Some f2
    /\ f2 <= f1.
Proof.
  destruct (compute_score_returns aztec_zk _ _ _ false false false _
              stability_curve_origin) as (d1 & Hd1 & _).
  destruct (compute_score_returns aztec_zk _ _ _ false false false _
              (stability_curve_returns _ _ _ runtime_ok_defaults))
    as (d2 & Hd2 & _).
  assert (Hin : In aztec_zk (dict_values CONSTRUCTS)) by (simpl; auto).
  destruct (final_score_antitone aztec_zk 0 180 0 950 0 3000
              false false false d1 d2 Hin) as (f1 & f2 & Hf1 & Hf2 & Hle);
    try lra; try lia; try assumption.
  exists d1, d2, f1, f2. auto.
Defined.

(** ** What a run reports back *)

Lemma compute_score_dict (c : Web3Construct) (l s : R) (t : Z)
    (ec ep ef : bool) (d : dict pyval) :
  compute_score c l s t ec ep ef = Ok d ->
  dict_keys d =
    [ "construct"; "name"; "category"; "description"; "latencyMs"; "syncMs";
      "throughput"; "enableCommitments"; "enableProofs"; "enableFhe";
      "stabilityMultiplier"; "finalScore" ]
  /\ dict_get d "construct" = Some (PyStr (key c))
  /\ dict_get d "name" = Some (PyStr (name c))
  /\ dict_get d "category" = Some (PyStr (category c))
  /\ dict_get d "description" = Some (PyStr (description c))
  /\ dict_get d "latencyMs" = Some (PyFloat l)
  /\ dict_get d "syncMs" = Some (PyFloat s)
  /\ dict_get d "throughput" = Some (PyInt t)
  /\ dict_get d "enableCommitments" = Some (PyBool ec)
  /\ dict_get d "enableProofs" = Some (PyBool ep)
  /\ dict_get d "enableFhe" = Some (PyBool ef).
Proof.
  unfold compute_score.
  destruct (stability_curve l s t) as [st | e]; [| discriminate].
  cbn [bind]. intros [= <-]. repeat split.
Qed.

(** X12: a run that returns reports back what was asked: the dictionary
    handed to the renderer has the twelve fields of the output, in their
    fixed order; its construct field is the requested key (aztec-zk when
    none is given) and its name, category and description are those of the
    catalog entry under that key; latencyMs, syncMs and throughput are the
    requested values, not rounded, and the three flags are the switches of
    the command line; the JSON renderer is taken exactly when --json is
    given. *)
Theorem main_reports_request (argv : CommandLine) (o : output) :
  main argv = Ok o ->
  exists c,
    dict_getitem CONSTRUCTS (cli_construct argv) = Ok c
    /\ dict_keys (output_dict o) =
         [ "construct"; "name"; "category"; "description"; "latencyMs";
           "syncMs"; "throughput"; "enableCommitments"; "enableProofs";
           "enableFhe"; "stabilityMultiplier"; "finalScore" ]
    /\ dict_get (output_dict o) "construct" = Some (PyStr (cli_construct argv))
    /\ dict_get (output_dict o) "name" = Some (PyStr (name c))
    /\ dict_get (output_dict o) "category" = Some (PyStr (category c))
    /\ dict_get (output_dict o) "description" = Some (PyStr (description c))
    /\ dict_get (output_dict o) "latencyMs" = Some (PyFloat (cli_latency argv))
    /\ dict_get (output_dict o) "syncMs" = Some (PyFloat (cli_sync argv))
    /\ dict_get (output_dict o) "throughput" =
         Some (PyInt (cli_throughput argv))
    /\ dict_get (output_dict o) "enableCommitments" =
         Some (PyBool (opt_commitments argv))
    /\ dict_get (output_dict o) "enableProofs" = Some (PyBool (opt_proofs argv))
    /\ dict_get (output_dict o) "enableFhe" = Some (PyBool (opt_fhe argv))
    /\ o = (if opt_json argv then JsonDump (output_dict o)
            else HumanReport (output_dict o)).
Proof.
  intros Ho.
  destruct (In_keys_dec (cli_construct argv)) as [Hin | Hout].
  - destruct (main_accepted _ Hin) as (c & Hc & Hkey & _ & Hmain).
    rewrite Hmain in Ho.
    destruct (compute_score c (cli_latency argv) (cli_sync argv)
                (cli_throughput argv) (opt_commitments argv)
                (opt_proofs argv) (opt_fhe argv)) as [d | e] eqn:Hd;
      [| discriminate].
    cbn [bind] in Ho.
    assert (Hod : output_dict o = d)
      by (destruct (opt_json argv); injection Ho as <-; reflexivity).
    destruct (compute_score_dict _ _ _ _ _ _ _ _ Hd)
      as (K & F1 & F2 & F3 & F4 & F5 & F6 & F7 & F8 & F9 & F10).
    exists c. rewrite Hod, <- Hkey.
    split; [unfold dict_getitem; rewrite Hkey; now rewrite Hc |].
    repeat (split; [assumption |]).
    destruct (opt_json argv); now injection Ho as <-.
  - unfold main in Ho. rewrite (parse_args_rejects _ Hout) in Ho.
    discriminate.
Qed.

Lemma runtime_ok_no_options :
  runtime_ok (cli_latency no_options) (cli_sync no_options)
    (cli_throughput no_options).
Proof.
  unfold cli_latency, cli_sync, cli_throughput. cbn [no_options opt_latency
    opt_sync opt_throughput].
  apply runtime_ok_nonneg; try lra; [| discriminate].
  apply Rabs_small_in_range. simpl. lia.
Qed.

Lemma main_reports_request_witness :
  exists o, main no_options = Ok o
            /\ dict_get (output_dict o) "construct" = Some (PyStr "aztec-zk")
            /\ dict_get (output_dict o) "throughput" = Some (PyInt 3000)
            /\ o = HumanReport (output_dict o).
Proof.
  assert (Hin : In (cli_construct no_options) (dict_keys CONSTRUCTS))
    by (simpl; auto).
  destruct (main_runs no_options Hin runtime_ok_no_options) as (o & Ho).
  destruct (main_reports_request no_options o Ho)
    as (c & _ & _ & H1 & _ & _ & _ & _ & _ & H2 & _ & _ & _ & H3).
  exists o. auto.
Defined.

(** ** The base score on machine numbers *)

Lemma all_flags_complete (flags : bool * bool * bool) : In flags all_flags.
Proof.
  destruct flags as [[[|] [|]] [|]]; simpl;
    repeat ((left; reflexivity) || right).
Qed.

(** X13: evaluated in binary64, with the operations in the order of the
    source, the base score of every catalog entry under every flag setting
    lies between the doubles 0.743 and 0.9400000000000002; the upper end is
    above the double 0.94. *)
Theorem base_score_binary64_range (attributes : float * float * float)
    (flags : bool * bool * bool) :
  In attributes CONSTRUCTS_b64 ->
  (0.743 <=? compute_score_base_b64 attributes flags)%float = true
  /\ (compute_score_base_b64 attributes flags <=? 0.9400000000000002)%float
     = true
  /\ (0.94 <? compute_score_base_b64 (0.81, 0.94, 0.58)%float
                (true, true, true))%float = true.
Proof.
  intros Ha. pose proof compute_score_base_b64_range as H.
  rewrite forallb_forall in H. specialize (H _ Ha).
  rewrite forallb_forall in H. specialize (H _ (all_flags_complete flags)).
  cbv zeta in H. apply andb_prop in H. destruct H as [H1 H2].
  repeat split; assumption || reflexivity.
Qed.

Lemma base_score_binary64_range_witness :
  (0.743 <=? compute_score_base_b64 (0.89, 0.87, 0.42)%float
               (false, false, false))%float = true
  /\ (compute_score_base_b64 (0.89, 0.87, 0.42)%float (false, false, false)
      <=? 0.9400000000000002)%float = true
  /\ (0.94 <? compute_score_base_b64 (0.81, 0.94, 0.58)%float
                (true, true, true))%float = true.
Proof.
  apply base_score_binary64_range. simpl. auto.
Defined.

(** ** The text report *)

Lemma fixed4_of_grid (n : Z) :
  (0 <= n)%Z -> fixed4 (IZR n / 10000) = fixed4_digits n.
Proof.
  intros Hn. apply IZR_le in Hn. unfold fixed4.
  destruct (Rlt_dec (IZR n / 10000) 0) as [Hneg | _]; [lra |].
  rewrite Rabs_pos_eq by lra. rewrite pow10_4.
  replace (IZR n / 10000 * 10000) with (IZR n) by lra.
  now rewrite round_half_even_IZR.
Qed.

(** Formatting a number that [round(., 4)] produced prints that number. *)
Lemma fixed4_py_round (x : R) :
  0 <= x ->
  fixed4 (py_round x 4) = fixed4_digits (round_half_even (x * 10 ^ 4)).
Proof.
  intros Hx. unfold py_round. rewrite pow10_4.
  apply fixed4_of_grid. apply round_half_even_lower. lra.
Qed.

Lemma fixed4_digits_below_one (n : Z) :
  (0 <= n < 10000)%Z -> fixed4_digits n = "0." ++ digits4 n.
Proof.
  intros Hn. unfold fixed4_digits.
  rewrite Z.div_small, Z.mod_small by lia. reflexivity.
Qed.

Lemma fixed4_digits_one : fixed4_digits 10000 = "1.0000".
Proof. reflexivity. Qed.

Lemma item_present (d : dict pyval) (k : string) (v : pyval) :
  dict_get d k = Some v -> item d k = inl v.
Proof. intros H. unfold item. now rewrite H. Qed.

(** The report on a dictionary that [compute_score] returned, line by line. *)
Lemma print_human_of_score_lines (float_str : R -> string) (c : Web3Construct)
    (latency_ms sync_ms : R) (throughput : Z) (ec ep ef : bool)
    (st : R) (d : dict pyval) :
  stability_curve latency_ms sync_ms throughput = Ok st ->
  compute_score c latency_ms sync_ms throughput ec ep ef = Ok d ->
  print_human float_str d =
    ([ "🧩 Web3 Construct Stability Model";
       "Construct     : " ++ name c ++ " (" ++ key c ++ ")";
       "Category      : " ++ category c;
       "Description   : " ++ description c;
       "";
       "Parameters:";
       "  Latency (ms)     : " ++ float_str latency_ms;
       "  Sync time (ms)   : " ++ float_str sync_ms;
       "  Throughput load  : " ++ int_str throughput;
       "  Commitments      : " ++ (if ec then "True" else "False");
       "  Proofs enabled   : " ++ (if ep then "True" else "False");
       "  FHE enabled      : " ++ (if ef then "True" else "False");
       "";
       "Stability Multiplier : "
         ++ fixed4_digits (round_half_even (st * 10 ^ 4));
       "Final Score          : "
         ++ fixed4_digits
              (round_half_even
                 (py_max 0 (py_min 1 (compute_score_base c ec ep ef * st))
                  * 10 ^ 4)) ],
     None).
Proof.
  intros Hst Hd.
  pose proof (stability_curve_range _ _ _ _ Hst) as [Hst0 _].
  pose proof (py_clamp_range (compute_score_base c ec ep ef * st)) as [Hf0 _].
  unfold compute_score in Hd. rewrite Hst in Hd. cbn [bind] in Hd.
  injection Hd as <-.
  unfold print_human, labelled, labelled_4f, item.
  cbn [dict_get String.eqb Ascii.eqb Bool.eqb fmt_bind format_4f py_str
       print_all].
  rewrite (fixed4_py_round _ Hst0), (fixed4_py_round _ Hf0).
  reflexivity.
Qed.

Lemma fixed4_digits_length (n : Z) :
  (0 <= n <= 10000)%Z -> String.length (fixed4_digits n) = 6%nat.
Proof.
  intros Hn. destruct (Z.eq_dec n 10000) as [-> | Hne]; [reflexivity |].
  rewrite fixed4_digits_below_one by lia. reflexivity.
Qed.

(** X14: the text report never fails on a dictionary that [compute_score]
    returned: [print_human] raises nothing and prints its fifteen lines,
    with the name and the key of the construct on the second, the inputs as
    given on lines 7 to 9 and the flags as True or False.  What the last two
    lines print is what the dictionary stores: the numerals, six characters
    each, of the very integers [m] and [n] (from 0 to 10000) whose
    ten-thousandths are the stored stabilityMultiplier and finalScore;
    formatting with [.4f] rounds nothing away a second time. *)
Theorem print_human_of_score (float_str : R -> string) (c : Web3Construct)
    (latency_ms sync_ms : R) (throughput : Z) (ec ep ef : bool)
    (d : dict pyval) :
  compute_score c latency_ms sync_ms throughput ec ep ef = Ok d ->
  exists n m : Z,
    (0 <= n <= 10000)%Z /\ (0 <= m <= 10000)%Z
    /\ float_field d "stabilityMultiplier" = Some (IZR m / 10000)
    /\ float_field d "finalScore" = Some (IZR n / 10000)
    /\ String.length (fixed4_digits m) = 6%nat
    /\ String.length (fixed4_digits n) = 6%nat
    /\ print_human float_str d =
         ([ "🧩 Web3 Construct Stability Model";
            "Construct     : " ++ name c ++ " (" ++ key c ++ ")";
            "Category      : " ++ category c;
            "Description   : " ++ description c;
            "";
            "Parameters:";
            "  Latency (ms)     : " ++ float_str latency_ms;
            "  Sync time (ms)   : " ++ float_str sync_ms;
            "  Throughput load  : " ++ int_str throughput;
            "  Commitments      : " ++ (if ec then "True" else "False");
            "  Proofs enabled   : " ++ (if ep then "True" else "False");
            "  FHE enabled      : " ++ (if ef then "True" else "False");
            "";
            "Stability Multiplier : " ++ fixed4_digits m;
            "Final Score          : " ++ fixed4_digits n ],
          None).
Proof.
  intros Hd.
  destruct (compute_score_inv _ _ _ _ _ _ _ _ Hd) as (st & Hst).
  pose proof (stability_curve_range _ _ _ _ Hst) as Hr.
  pose proof (py_clamp_range (compute_score_base c ec ep ef * st)) as Hc.
  destruct (compute_score_returns c _ _ _ ec ep ef _ Hst)
    as (d' & Hd' & Hm & Hf).
  assert (d' = d) by congruence. subst d'.
  exists (round_half_even
            (py_max 0 (py_min 1 (compute_score_base c ec ep ef * st)) * 10 ^ 4)),
         (round_half_even (st * 10 ^ 4)).
  assert (Hn : (0 <= round_half_even
                       (py_max 0 (py_min 1 (compute_score_base c ec ep ef * st))
                        * 10 ^ 4) <= 10000)%Z).
  { rewrite pow10_4.
    split; [apply round_half_even_lower | apply round_half_even_upper]; lra. }
  assert (Hmr : (0 <= round_half_even (st * 10 ^ 4) <= 10000)%Z).
  { rewrite pow10_4.
    split; [apply round_half_even_lower | apply round_half_even_upper]; lra. }
  split; [exact Hn |]. split; [exact Hmr |].
  split; [rewrite Hm; unfold py_round; now rewrite pow10_4 |].
  split; [rewrite Hf; unfold py_round; now rewrite pow10_4 |].
  split; [now apply fixed4_digits_length |].
  split; [now apply fixed4_digits_length |].
  exact (print_human_of_score_lines float_str c _ _ _ ec ep ef st d Hst Hd).
Qed.

Lemma print_human_of_score_witness :
  exists d,
    compute_score soundness_lab 0 0 0 false false false = Ok d
    /\ snd (print_human (fun _ => "0.0") d) = None
    /\ List.length (fst (print_human (fun _ => "0.0") d)) = 15%nat.
Proof.
  destruct (compute_score_returns soundness_lab _ _ _ false false false _
              stability_curve_origin) as (d & Hd & _).
  exists d. split; [exact Hd |].
  destruct (print_human_of_score (fun _ => "0.0") soundness_lab 0 0 0
              false false false d Hd) as (n & m & _ & _ & _ & _ & _ & _ & ->).
  split; reflexivity.
Defined.

Lemma snd_print_all_inl (line : string) (rest : list (string + fmt_exn)) :
  snd (print_all (inl line :: rest)) = snd (print_all rest).
Proof. simpl. now destruct (print_all rest). Qed.

Lemma fst_print_all_inl (line : string) (rest : list (string + fmt_exn)) :
  fst (print_all (inl line :: rest)) = line :: fst (print_all rest).
Proof. simpl. now destruct (print_all rest). Qed.

Lemma print_all_inr (e : fmt_exn) (rest : list (string + fmt_exn)) :
  print_all (inr e :: rest) = ([], Some e).
Proof. reflexivity. Qed.

(** ** The score formula *)

(** C2, as the code has it: at a latency of -3000000 ms the formula of the
    specification has the value 1, but [stability_curve] returns nothing: the
    exponential overflows. *)
Lemma stability_formula_not_returned :
  spec_stability (-3000000) 0 0 = 1
  /\ stability_curve (-3000000) 0 0 = Raise OverflowError.
Proof.
  split; [| apply stability_curve_overflow; lra].
  unfold spec_stability. cbv zeta. rewrite <- py_clamp_spec.
  pose proof (exp_pos (- -3000000 / 1500)).
  replace (- 0 / 800) with 0 by lra. rewrite exp_0.
  assert (E : 1 <= exp (- -3000000 / 1500)).
  { rewrite <- exp_0. apply exp_le_mono. lra. }
  unfold py_max, py_min.
  destruct (Rlt_dec _ 1); [lra |]. destruct (Rlt_dec 0 1); lra.
Qed.




(** ** The clamp on the catalog *)





(** ** How fast the multiplier falls *)

Lemma exp_neg_le_inv (x : R) : 0 <= x -> exp (- x) <= / (1 + x).
Proof.
  intros Hx. rewrite exp_Ropp.
  apply Rinv_le_contravar; [lra | apply exp_ineq1_le].
Qed.

Lemma exp_10_le : exp 10 <= 59049.
Proof.
  replace 10 with (INR 10) by (simpl; lra). rewrite exp_INR.
  apply Rle_trans with (3 ^ 10).
  - apply pow_le_mono_base. split; [left; apply exp_pos | apply exp_le_3].
  - simpl. lra.
Qed.

Lemma exp_ge_minus_10 (x : R) : -10 <= x -> / 59049 <= exp x.
Proof.
  intros Hx.
  apply Rle_trans with (exp (Ropp 10)); [| apply exp_le_mono; lra].
  rewrite exp_Ropp. apply Rinv_le_contravar; [apply exp_pos | apply exp_10_le].
Qed.

(** A step of at least [h] in the argument of a decaying exponential that is
    still above [-10] costs at least [h / 59049]. *)
Lemma exp_drop (a h : R) :
  -10 <= a -> 0 <= h -> exp a * (1 + h) <= exp (a + h).
Proof.
  intros Ha Hh. rewrite exp_plus.
  apply Rmult_le_compat_l; [left; apply exp_pos | apply exp_ineq1_le].
Qed.

Lemma throughput_term_drop (n1 n2 : Z) :
  (0 <= n1 < n2)%Z -> (n2 <= 1000000)%Z ->
  1 / (1 + IZR n2 / 10000) + / 102010000 <= 1 / (1 + IZR n1 / 10000).
Proof.
  intros [H0 H12] H2.
  assert (H12' : (n1 + 1 <= n2)%Z) by lia.
  apply IZR_le in H0, H12', H2. rewrite plus_IZR in H12'.
  set (x1 := 1 + IZR n1 / 10000). set (x2 := 1 + IZR n2 / 10000).
  assert (Hx1 : 1 <= x1) by (unfold x1; lra).
  assert (Hx2 : x1 + / 10000 <= x2) by (unfold x1, x2; lra).
  assert (Hx2' : x2 <= 101) by (unfold x2; lra).
  unfold Rdiv at 1 2. rewrite !Rmult_1_l.
  assert (U1 : / x1 * x1 = 1) by (apply Rinv_l; lra).
  assert (U2 : / x2 * x2 = 1) by (apply Rinv_l; lra).
  assert (P1 : / 101 <= / x1) by (apply Rinv_le_contravar; lra).
  assert (P2 : / 101 <= / x2) by (apply Rinv_le_contravar; lra).
  assert (E : / x1 - / x2 = / x1 * / x2 * (x2 - x1)) by nra.
  assert (L : / 101 * / 101 * / 10000 <= / x1 * / x2 * (x2 - x1)).
  { apply Rmult_le_compat; try lra; nra. }
  lra.
Qed.

(** X5: away from the origin the multiplier is visibly below 1: on inputs
    that are not negative, as soon as the latency or the sync time is at
    least 1 ms, or the throughput at least 1, what [stability_curve] returns
    is at most 0.99997. *)
Theorem stability_below_one_off_origin (latency_ms sync_ms : R)
    (throughput : Z) (v : R) :
  0 <= latency_ms -> 0 <= sync_ms -> (0 <= throughput)%Z ->
  1 <= latency_ms \/ 1 <= sync_ms \/ (1 <= throughput)%Z ->
  stability_curve latency_ms sync_ms throughput = Ok v ->
  v <= 0.99997.
Proof.
  intros Hl Hs Ht Hoff H.
  rewrite (runtime_ok_throughput_nonneg _ _ _ _ Hl Hs H Ht).
  assert (E1 : exp (- latency_ms / 1500) <= 1) by (apply exp_nonpos_le_1; lra).
  assert (E2 : exp (- sync_ms / 800) <= 1) by (apply exp_nonpos_le_1; lra).
  pose proof (throughput_term_le_1 throughput Ht) as E3.
  destruct Hoff as [H1 | [H1 | H1]].
  - assert (exp (- latency_ms / 1500) <= / (1 + / 1500)).
    { apply Rle_trans with (exp (- (/ 1500))); [apply exp_le_mono; lra |].
      apply exp_neg_le_inv. lra. }
    lra.
  - assert (exp (- sync_ms / 800) <= / (1 + / 800)).
    { apply Rle_trans with (exp (- (/ 800))); [apply exp_le_mono; lra |].
      apply exp_neg_le_inv. lra. }
    lra.
  - apply IZR_le in H1.
    assert (1 / (1 + IZR throughput / 10000) <= / (1 + / 10000)).
    { unfold Rdiv at 1. rewrite Rmult_1_l. apply Rinv_le_contravar; lra. }
    lra.
Qed.

Lemma stability_below_one_off_origin_witness :
  exists v, stability_curve 0 0 1 = Ok v /\ v <= 0.99997.
Proof.
  assert (Hok : runtime_ok 0 0 1).
  { apply runtime_ok_nonneg; try lra; [| discriminate].
    apply Rabs_small_in_range. simpl. lia. }
  eexists. split; [exact (stability_curve_returns _ _ _ Hok) |].
  apply (stability_below_one_off_origin 0 0 1);
    [lra | lra | lia | right; right; lia
    | exact (stability_curve_returns _ _ _ Hok)].
Defined.

Lemma exp_step_drop (x1 x2 k : R) :
  0 < k -> x1 + 1 <= x2 -> x2 <= 10 * k ->
  exp (- x2 / k) + / 59049 * / k <= exp (- x1 / k).
Proof.
  intros Hk H12 H2.
  assert (Hik : 0 < / k) by now apply Rinv_0_lt_compat.
  assert (Hkk : / k * k = 1) by (apply Rinv_l; lra).
  assert (Ha : -10 <= - x2 / k).
  { unfold Rdiv. nra. }
  assert (Hh : / k <= (x2 - x1) / k).
  { unfold Rdiv. nra. }
  pose proof (exp_ge_minus_10 _ Ha) as Hlow.
  assert (Hstep : exp (- x2 / k) * (1 + (x2 - x1) / k)
                  <= exp (- x2 / k + (x2 - x1) / k)).
  { apply exp_drop; [assumption | lra]. }
  replace (- x2 / k + (x2 - x1) / k) with (- x1 / k) in Hstep
    by (unfold Rdiv; ring).
  assert (Hprod : / 59049 * / k <= exp (- x2 / k) * ((x2 - x1) / k)).
  { apply Rmult_le_compat; lra. }
  lra.
Qed.

(** X6: the multiplier falls by a visible amount at each step: with the
    two other inputs fixed and not negative, a latency larger by at least 1
    ms (up to 15000 ms), a sync time larger by at least 1 ms (up to 8000 ms)
    or a larger throughput (up to 1000000) lowers what [stability_curve]
    returns by at least one billionth. *)
Theorem stability_decreases_by_margin :
  (forall (l1 l2 s : R) (t : Z) (v1 v2 : R),
      0 <= l1 -> l1 + 1 <= l2 -> l2 <= 15000 -> 0 <= s -> (0 <= t)%Z ->
      stability_curve l1 s t = Ok v1 -> stability_curve l2 s t = Ok v2 ->
      v2 + / 1000000000 <= v1)
  /\ (forall (l s1 s2 : R) (t : Z) (v1 v2 : R),
      0 <= l -> 0 <= s1 -> s1 + 1 <= s2 -> s2 <= 8000 -> (0 <= t)%Z ->
      stability_curve l s1 t = Ok v1 -> stability_curve l s2 t = Ok v2 ->
      v2 + / 1000000000 <= v1)
  /\ (forall (l s : R) (t1 t2 : Z) (v1 v2 : R),
      0 <= l -> 0 <= s -> (0 <= t1 < t2)%Z -> (t2 <= 1000000)%Z ->
      stability_curve l s t1 = Ok v1 -> stability_curve l s t2 = Ok v2 ->
      v2 + / 1000000000 <= v1).
Proof.
  split; [| split].
  - intros l1 l2 s t v1 v2 Hl1 Hl12 Hl2 Hs Ht H1 H2.
    rewrite (runtime_ok_throughput_nonneg l1 s t v1) by (assumption || lra).
    rewrite (runtime_ok_throughput_nonneg l2 s t v2) by (assumption || lra).
    pose proof (exp_step_drop l1 l2 1500). lra.
  - intros l s1 s2 t v1 v2 Hl Hs1 Hs12 Hs2 Ht H1 H2.
    rewrite (runtime_ok_throughput_nonneg l s1 t v1) by (assumption || lra).
    rewrite (runtime_ok_throughput_nonneg l s2 t v2) by (assumption || lra).
    pose proof (exp_step_drop s1 s2 800). lra.
  - intros l s t1 t2 v1 v2 Hl Hs Ht Ht2 H1 H2.
    rewrite (runtime_ok_throughput_nonneg l s t1 v1) by (assumption || lia).
    rewrite (runtime_ok_throughput_nonneg l s t2 v2) by (assumption || lia).
    pose proof (throughput_term_drop t1 t2 Ht Ht2). lra.
Qed.

Lemma stability_decreases_by_margin_witness :
  exists v2, stability_curve 0 0 3000 = Ok v2 /\ v2 + / 1000000000 <= 1.
Proof.
  destruct stability_decreases_by_margin as (_ & _ & Hthr).
  assert (Hok : runtime_ok 0 0 3000).
  { apply runtime_ok_nonneg; try lra; [| discriminate].
    apply Rabs_small_in_range. simpl. lia. }
  eexists. split; [exact (stability_curve_returns _ _ _ Hok) |].
  apply (Hthr 0 0 0%Z 3000%Z 1);
    [lra | lra | lia | lia | exact stability_curve_origin
    | exact (stability_curve_returns _ _ _ Hok)].
Defined.

(** ** The report on other dictionaries *)

(** Closes a case where [print_human] has reached a statement that raises. *)
Ltac raises :=
  rewrite ?snd_print_all_inl; rewrite print_all_inr; cbn [snd]; eauto.

(** X15: [print_human] does not run to its end on a dictionary that lacks
    one of the twelve fields it reads, nor on one whose stabilityMultiplier
    or finalScore is a string: it raises. *)
Theorem print_human_raises_on_bad_fields (float_str : R -> string)
    (d : dict pyval) :
  (exists k, In k report_fields /\ dict_get d k = None)
  \/ (exists s, dict_get d "stabilityMultiplier" = Some (PyStr s))
  \/ (exists s, dict_get d "finalScore" = Some (PyStr s)) ->
  exists e, snd (print_human float_str d) = Some e.
Proof.
  intros Hbad.
  unfold print_human, labelled, labelled_4f, item.
  rewrite snd_print_all_inl.
  destruct (dict_get d "name") as [v1 |] eqn:E1; cbn [fmt_bind]; [| raises].
  destruct (dict_get d "construct") as [v2 |] eqn:E2; cbn [fmt_bind];
    [| raises].
  rewrite snd_print_all_inl.
  destruct (dict_get d "category") as [v3 |] eqn:E3; cbn [fmt_bind];
    [| raises].
  rewrite snd_print_all_inl.
  destruct (dict_get d "description") as [v4 |] eqn:E4; cbn [fmt_bind];
    [| raises].
  rewrite !snd_print_all_inl.
  destruct (dict_get d "latencyMs") as [v5 |] eqn:E5; cbn [fmt_bind];
    [| raises].
  rewrite snd_print_all_inl.
  destruct (dict_get d "syncMs") as [v6 |] eqn:E6; cbn [fmt_bind]; [| raises].
  rewrite snd_print_all_inl.
  destruct (dict_get d "throughput") as [v7 |] eqn:E7; cbn [fmt_bind];
    [| raises].
  rewrite snd_print_all_inl.
  destruct (dict_get d "enableCommitments") as [v8 |] eqn:E8; cbn [fmt_bind];
    [| raises].
  rewrite snd_print_all_inl.
  destruct (dict_get d "enableProofs") as [v9 |] eqn:E9; cbn [fmt_bind];
    [| raises].
  rewrite snd_print_all_inl.
  destruct (dict_get d "enableFhe") as [v10 |] eqn:E10; cbn [fmt_bind];
    [| raises].
  rewrite !snd_print_all_inl.
  destruct (dict_get d "stabilityMultiplier") as [v11 |] eqn:E11;
    cbn [fmt_bind]; [| raises].
  destruct (format_4f v11) as [s11 | e11] eqn:F11; cbn [fmt_bind];
    [| raises].
  rewrite snd_print_all_inl.
  destruct (dict_get d "finalScore") as [v12 |] eqn:E12; cbn [fmt_bind];
    [| raises].
  destruct (format_4f v12) as [s12 | e12] eqn:F12; cbn [fmt_bind];
    [| raises].
  exfalso. destruct Hbad as [(k & Hk & Hnone) | [(s & Hs) | (s & Hs)]].
  - unfold report_fields in Hk. simpl in Hk.
    repeat (destruct Hk as [<- | Hk]; [congruence |]). destruct Hk.
  - injection Hs as ->. discriminate F11.
  - injection Hs as ->. discriminate F12.
Qed.

Lemma print_human_raises_on_bad_fields_witness :
  exists e, snd (print_human (fun _ => "0.0") []) = Some e.
Proof.
  apply print_human_raises_on_bad_fields.
  left. exists "name". split; [simpl; auto | reflexivity].
Defined.
